(** * Power BI service MCP server: token provider and remote-API client

    A shallow embedding of [src/auth/msal.ts], [src/utils/env.ts],
    [src/utils/errors.ts] and the [request] path of
    [src/services/powerbiClient.ts]; then of the start-up in
    [src/index.ts], of the API-key hook and the error handler of
    [src/server.ts] with the route [GET /workspaces/:workspaceId] of
    [src/api/routes/pbi.ts], and of the pbi-tools wrapper
    [src/services/pbiTools.ts] with the helpers of [src/utils/fsx.ts]
    it uses.

    The TypeScript code is asynchronous and effectful: it reads the
    clock, keeps one module-level credential slot, writes log lines and
    talks to two remote parties (the identity provider through MSAL, the
    Power BI REST API through axios).  Every [async] function becomes a
    computation in the monad [Async]: a function from the [World] it
    starts in to its completion (a value or a thrown exception) and the
    [World] it leaves behind.  Remote parties are oracles; every effect
    is appended to the world's [trace].  Calls are taken one at a time:
    what other callers do to the credential slot while a call is
    suspended is outside this model. *)

From Stdlib Require Import ZArith Ascii String List Lia.
From stdpp Require Import base strings pretty gmap.
Import ListNotations.

Local Open Scope Z_scope.
Local Open Scope string_scope.

(** ** JavaScript values

    Response bodies and error messages are untyped ([any]) in the
    source.  Numbers are restricted to the integers, which is all a
    status code or a retry counter needs. *)

#[warnings="-register-all"]
Inductive JsVal : Type :=
| JUndefined
| JNull
| JBool (b : bool)
| JNum (n : Z)
| JStr (s : string)
| JArr (items : list JsVal)
| JObj (fields : list (string * JsVal)).

(** ToBoolean: [undefined], [null], [false], [0] and [''] are falsy. *)
Definition truthy (v : JsVal) : bool :=
  match v with
  | JUndefined | JNull => false
  | JBool b => b
  | JNum n => negb (Z.eqb n 0)
  | JStr s => negb (String.eqb s "")
  | JArr _ | JObj _ => true
  end.

(** [a || b] *)
Definition js_or (a b : JsVal) : JsVal := if truthy a then a else b.

Fixpoint assoc (k : string) (fields : list (string * JsVal)) : JsVal :=
  match fields with
  | [] => JUndefined
  | (k', v) :: rest => if String.eqb k k' then v else assoc k rest
  end.

(** [v?.k] for the two keys the client reads ([error], [message]):
    neither is a property of a primitive or of an array. *)
Definition opt_get (v : JsVal) (k : string) : JsVal :=
  match v with
  | JObj fields => assoc k fields
  | _ => JUndefined
  end.

(** ** Errors ([src/utils/errors.ts]) *)

Record AppError : Type := mkAppError {
  name : string;
  message : JsVal;
  statusCode : Z;
  code : option string;
  details : JsVal
}.

(** [new AuthenticationError(message)] *)
Definition AuthenticationError (msg : string) : AppError :=
  {| name := "AuthenticationError"; message := JStr msg;
     statusCode := 401; code := Some "AUTH_ERROR"; details := JUndefined |}.

(** [new PowerBIError(message, statusCode = 400, details?)] *)
Definition PowerBIError (msg : JsVal) (status : option Z) (det : JsVal) : AppError :=
  {| name := "PowerBIError"; message := msg;
     statusCode := default 400 status; code := Some "POWERBI_ERROR";
     details := det |}.

(** ** Configuration ([src/utils/env.ts]) *)

Record Env : Type := mkEnv {
  CLIENT_ID : string;
  CLIENT_SECRET : string;
  TENANT_ID : string;
  API_KEY : string;
  PORT : string;
  PBI_SCOPE : string;
  PBI_AUTH_MODE : string;
  CORS_ORIGINS : string;
  PBI_TOOLS_PATH : string
}.

(** [process.env.K || d]: an unset and an empty variable both give [d]. *)
Definition env_or (process_env : gmap string string) (k d : string) : string :=
  match process_env !! k with
  | Some v => if String.eqb v "" then d else v
  | None => d
  end.

(** The exported constant [env], as a function of [process.env]. *)
Definition env (process_env : gmap string string) : Env :=
  {| CLIENT_ID := env_or process_env "CLIENT_ID" "";
     CLIENT_SECRET := env_or process_env "CLIENT_SECRET" "";
     TENANT_ID := env_or process_env "TENANT_ID" "";
     API_KEY := env_or process_env "API_KEY" "";
     PORT := env_or process_env "PORT" "3000";
     PBI_SCOPE := "https://analysis.windows.net/powerbi/api/.default";
     PBI_AUTH_MODE := env_or process_env "PBI_AUTH_MODE" "sp";
     CORS_ORIGINS := env_or process_env "CORS_ORIGINS" "*";
     PBI_TOOLS_PATH := env_or process_env "PBI_TOOLS_PATH" "pbi-tools" |}.

(** ** The world *)

(** [interface TokenCache].  A [Date] is its time value, in
    milliseconds since the epoch; comparing two dates compares these. *)
Record TokenCache : Type := mkTokenCache {
  accessToken : string;
  expiresOn : Z
}.

(** The two fields of MSAL's [AuthenticationResult] the code reads;
    [expiresOn] is [Date | null] there. *)
Record AuthenticationResult : Type := mkAuthenticationResult {
  result_accessToken : string;
  result_expiresOn : option Z
}.

Record MsalConfig : Type := mkMsalConfig {
  clientId : string;
  authority : string;
  clientSecret : option string
}.

Record DeviceCodeResponse : Type := mkDeviceCodeResponse {
  verificationUri : string;
  userCode : string
}.

Record AxiosRequestConfig : Type := mkAxiosRequestConfig {
  method : string;
  url : string;
  params : JsVal;
  data : JsVal;
  headers : list (string * string);
  _retry : option Z
}.

Record AxiosResponse : Type := mkAxiosResponse {
  status : Z;
  response_data : JsVal
}.

Inductive LogLevel : Type := debug | info | warn | error.

Inductive Flow : Type := ClientCredential | DeviceCode.

(** What the transport below axios reports for one HTTP exchange. *)
Inductive HttpOutcome : Type :=
| Answered (r : AxiosResponse)
| NoResponse (reason : string).

Inductive Event : Type :=
| Logged (level : LogLevel) (msg : string)
| Printed (line : string)
| Constructed (flow : Flow) (config : MsalConfig)
| TokenCall (flow : Flow) (config : MsalConfig) (scopes : list string)
| HttpCall (config : AxiosRequestConfig) (outcome : HttpOutcome)
| Slept (ms : Z).

(** The events that go over the network. *)
Definition is_network (e : Event) : bool :=
  match e with
  | TokenCall _ _ _ | HttpCall _ _ => true
  | _ => false
  end.

Definition is_construction (e : Event) : bool :=
  match e with
  | Constructed _ _ => true
  | _ => false
  end.

Definition network_calls (t : list Event) : nat := length (List.filter is_network t).

Definition constructions (t : list Event) : nat := length (List.filter is_construction t).

Record World : Type := mkWorld {
  clock : Z;
  tokenCache : option TokenCache;
  trace : list Event
}.

(** ** Asynchronous computations *)

Inductive Thrown : Type :=
| AppThrown (e : AppError)
| AxiosThrown (msg : string) (config : AxiosRequestConfig) (response : option AxiosResponse)
| OtherThrown (reason : string)
| OutOfFuel.

Inductive Completion (A : Type) : Type :=
| Returned (a : A)
| Threw (t : Thrown).

Arguments Returned {A} a.
Arguments Threw {A} t.

Definition Async (A : Type) : Type := World -> Completion A * World.

Definition ret {A} (a : A) : Async A := fun w => (Returned a, w).

Definition throw {A} (t : Thrown) : Async A := fun w => (Threw t, w).

Definition bind {A B} (m : Async A) (k : A -> Async B) : Async B :=
  fun w =>
    match m w with
    | (Returned a, w') => k a w'
    | (Threw t, w') => (Threw t, w')
    end.

(** [try { m } catch (error) { handler(error) }] *)
Definition try_catch {A} (m : Async A) (handler : Thrown -> Async A) : Async A :=
  fun w =>
    match m w with
    | (Returned a, w') => (Returned a, w')
    | (Threw t, w') => handler t w'
    end.

Declare Scope async_scope.
Delimit Scope async_scope with async.
Notation "x ← y ; z" := (bind y (fun x => z))
  (at level 20, y at level 100, z at level 200, only parsing) : async_scope.
Notation "y ;; z" := (bind y (fun _ => z))
  (at level 100, z at level 200, only parsing, right associativity) : async_scope.
Local Open Scope async_scope.

(** [Date.now()] *)
Definition Date_now : Async Z := fun w => (Returned (clock w), w).

Definition emit (e : Event) : Async unit :=
  fun w => (Returned tt, {| clock := clock w; tokenCache := tokenCache w; trace := trace w ++ [e] |}).

Definition logger (level : LogLevel) (msg : string) : Async unit := emit (Logged level msg).

Definition console_log (line : string) : Async unit := emit (Printed line).

Definition read_tokenCache : Async (option TokenCache) := fun w => (Returned (tokenCache w), w).

Definition write_tokenCache (c : option TokenCache) : Async unit :=
  fun w => (Returned tt, {| clock := clock w; tokenCache := c; trace := trace w |}).

(** The promise settles at clock value [t]. *)
Definition resume_at (t : Z) : Async unit :=
  fun w => (Returned tt, {| clock := t; tokenCache := tokenCache w; trace := trace w |}).

(** ** The identity provider (MSAL), as an oracle

    A token request is answered by the provider: the promise is
    fulfilled with a result (or [null]) or rejected, and the caller
    resumes when the clock reads [settledAt].  The answer may depend on
    the time of the call and on everything that happened before it (the
    trace), but not on the credential slot, which the provider cannot
    see.  The device-code flow may first hand out a verification URL
    and a user code, which MSAL passes to [deviceCodeCallback]. *)

Inductive Settled (A : Type) : Type :=
| Fulfilled (a : A)
| Rejected (reason : string).

Arguments Fulfilled {A} a.
Arguments Rejected {A} reason.

Record TokenReply : Type := mkTokenReply {
  settled : Settled (option AuthenticationResult);
  settledAt : Z
}.

Record IdentityProvider : Type := mkIdentityProvider {
  byClientCredential : Z -> list Event -> MsalConfig -> list string -> TokenReply;
  byDeviceCode :
    Z -> list Event -> MsalConfig -> list string -> option DeviceCodeResponse * TokenReply
}.

(** ['='.repeat(60)] *)
Fixpoint repeat_string (s : string) (n : nat) : string :=
  match n with
  | O => ""
  | S n' => s ++ repeat_string s n'
  end.

Definition newline : string := String (Ascii.ascii_of_nat 10) "".

(** ** The token provider ([src/auth/msal.ts]) *)

Section TokenProvider.

Variable E : Env.
Variable idp : IdentityProvider.

Definition settle (reply : TokenReply) : Async (option AuthenticationResult) :=
  resume_at (settledAt reply);;
  match settled reply with
  | Fulfilled r => ret r
  | Rejected reason => throw (OtherThrown reason)
  end.

(** [new ConfidentialClientApplication(config)] and
    [new PublicClientApplication(config)]: the constructors do no I/O
    and accept the configurations built here (the secret, when one is
    passed, is not empty); the construction is recorded. *)
Definition new_client (flow : Flow) (config : MsalConfig) : Async unit :=
  emit (Constructed flow config).

(** [cca.acquireTokenByClientCredential({ scopes })] *)
Definition acquireTokenByClientCredential (config : MsalConfig) (scopes : list string)
  : Async (option AuthenticationResult) :=
  fun w =>
    (emit (TokenCall ClientCredential config scopes);;
     settle (byClientCredential idp (clock w) (trace w) config scopes)) w.

(** [pca.acquireTokenByDeviceCode({ scopes, deviceCodeCallback })] *)
Definition acquireTokenByDeviceCode (config : MsalConfig) (scopes : list string)
    (deviceCodeCallback : DeviceCodeResponse -> Async unit)
  : Async (option AuthenticationResult) :=
  fun w =>
    let '(prompt, reply) := byDeviceCode idp (clock w) (trace w) config scopes in
    (emit (TokenCall DeviceCode config scopes);;
     match prompt with
     | Some response => deviceCodeCallback response
     | None => ret tt
     end;;
     settle reply) w.

(** [acquireTokenServicePrincipal] *)
Definition acquireTokenServicePrincipal : Async (option AuthenticationResult) :=
  if String.eqb (CLIENT_SECRET E) "" then
    throw (AppThrown (AuthenticationError
      "CLIENT_SECRET is required for service principal authentication"))
  else
    let msalConfig :=
      {| clientId := CLIENT_ID E;
         authority := "https://login.microsoftonline.com/" ++ TENANT_ID E;
         clientSecret := Some (CLIENT_SECRET E) |} in
    new_client ClientCredential msalConfig;;
    try_catch
      (acquireTokenByClientCredential msalConfig [PBI_SCOPE E])
      (fun _ =>
         logger error "Service principal authentication failed";;
         throw (AppThrown (AuthenticationError "Service principal authentication failed"))).

(** The callback handed to MSAL by [acquireTokenDeviceCode]. *)
Definition deviceCodeCallback (response : DeviceCodeResponse) : Async unit :=
  logger info "Device Code Authentication Required";;
  logger info ("Open: " ++ verificationUri response);;
  logger info ("Enter Code: " ++ userCode response);;
  console_log (newline ++ repeat_string "=" 60);;
  console_log "      DEVICE CODE AUTHENTICATION";;
  console_log (repeat_string "=" 60);;
  console_log ("1. Visit: " ++ verificationUri response);;
  console_log ("2. Enter Code: " ++ userCode response);;
  console_log (repeat_string "=" 60 ++ newline).

(** [acquireTokenDeviceCode] *)
Definition acquireTokenDeviceCode : Async (option AuthenticationResult) :=
  let msalConfig :=
    {| clientId := CLIENT_ID E;
       authority := "https://login.microsoftonline.com/" ++ TENANT_ID E;
       clientSecret := None |} in
  new_client DeviceCode msalConfig;;
  try_catch
    (result ← acquireTokenByDeviceCode msalConfig [PBI_SCOPE E] deviceCodeCallback;
     ret result)
    (fun _ =>
       logger error "Device code authentication failed";;
       throw (AppThrown (AuthenticationError "Device code authentication failed"))).

(** The test of the cache-hit path,
    [tokenCache.expiresOn > new Date(Date.now() + 5 * 60 * 1000)]. *)
Definition still_valid (now : Z) (c : TokenCache) : bool :=
  Z.ltb (now + 5 * 60 * 1000) (expiresOn c).

(** [tokenCache && tokenCache.expiresOn > ...]: the credential the
    cache-hit path may return, if any. *)
Definition usable (now : Z) (cached : option TokenCache) : option TokenCache :=
  match cached with
  | Some c => if still_valid now c then Some c else None
  | None => None
  end.

(** [getAccessToken] *)
Definition getAccessToken : Async string :=
  cached ← read_tokenCache;
  now ← Date_now;
  match usable now cached with
  | Some c =>
      logger debug "Using cached access token";;
      ret (accessToken c)
  | None =>
      logger info "Acquiring new access token";;
      result ←
        (if String.eqb (PBI_AUTH_MODE E) "sp" then acquireTokenServicePrincipal
         else if String.eqb (PBI_AUTH_MODE E) "device" then acquireTokenDeviceCode
         else throw (AppThrown (AuthenticationError
                ("Invalid auth mode: " ++ PBI_AUTH_MODE E))));
      match result with
      | Some r =>
          if String.eqb (result_accessToken r) "" then
            throw (AppThrown (AuthenticationError "Failed to acquire access token"))
          else
            now' ← Date_now;
            write_tokenCache (Some
              {| accessToken := result_accessToken r;
                 expiresOn := default (now' + 3600 * 1000) (result_expiresOn r) |});;
            logger info "Access token acquired successfully";;
            ret (result_accessToken r)
      | None => throw (AppThrown (AuthenticationError "Failed to acquire access token"))
      end
  end.

(** [clearTokenCache] *)
Definition clearTokenCache : Async unit :=
  write_tokenCache None;;
  logger debug "Token cache cleared".

End TokenProvider.

(** ** The remote-API client ([src/services/powerbiClient.ts])

    The Power BI REST API is an oracle as well: for every request that
    leaves axios it either answers with a status and a body or gives no
    response at all (timeout, connection refused), as a function of the
    time of the call, the trace so far and the request. *)

Record HttpReply : Type := mkHttpReply {
  outcome : HttpOutcome;
  repliedAt : Z
}.

Definition Transport : Type := Z -> list Event -> AxiosRequestConfig -> HttpReply.

Definition MAX_RETRIES : Z := 3.
Definition RETRY_DELAY : Z := 1000.

(** axios' default [validateStatus] *)
Definition is_2xx (s : Z) : bool := Z.leb 200 s && Z.ltb s 300.

Definition set_header (k v : string) (hs : list (string * string)) : list (string * string) :=
  (k, v) :: List.filter (fun kv => negb (String.eqb (fst kv) k)) hs.

Definition with_Authorization (config : AxiosRequestConfig) (v : string) : AxiosRequestConfig :=
  {| method := method config; url := url config; params := params config;
     data := data config; headers := set_header "Authorization" v (headers config);
     _retry := _retry config |}.

Definition with_retry (config : AxiosRequestConfig) (n : Z) : AxiosRequestConfig :=
  {| method := method config; url := url config; params := params config;
     data := data config; headers := headers config; _retry := Some n |}.

Section ApiClient.

Variable E : Env.
Variable idp : IdentityProvider.
Variable net : Transport.

(** axios' [dispatchRequest] followed by [settle]: a status outside
    2xx rejects with an [AxiosError] that carries the response. *)
Definition dispatchRequest (config : AxiosRequestConfig) : Async AxiosResponse :=
  fun w =>
    let reply := net (clock w) (trace w) config in
    (emit (HttpCall config (outcome reply));;
     resume_at (repliedAt reply);;
     match outcome reply with
     | Answered r =>
         if is_2xx (status r) then ret r
         else throw (AxiosThrown
                ("Request failed with status code " ++ pretty (status r))
                config (Some r))
     | NoResponse reason => throw (AxiosThrown reason config None)
     end) w.

(** The request interceptor. *)
Definition request_interceptor (config : AxiosRequestConfig) : Async AxiosRequestConfig :=
  token ← getAccessToken E idp;
  ret (with_Authorization config ("Bearer " ++ token)).

(** [setTimeout(resolve, delay)] *)
Definition sleep (delay : Z) : Async unit :=
  now ← Date_now;
  emit (Slept delay);;
  resume_at (now + delay).

(** [this.client(config)]: request interceptor, dispatch, response
    interceptor.  The request interceptor is asynchronous, so its
    rejection reaches the error handler of the response interceptor
    too.  A retry re-enters the client with the configuration of the
    failed request, the [_retry] counter included; [fuel] bounds the
    nesting. *)
Fixpoint client (fuel : nat) (config : AxiosRequestConfig) : Async AxiosResponse :=
  match fuel with
  | O => throw OutOfFuel
  | S fuel' =>
      try_catch
        (config' ← request_interceptor config;
         dispatchRequest config')
        (fun err =>
           logger error "Power BI API error";;
           match err with
           | AxiosThrown _ originalRequest (Some response) =>
               if Z.eqb (status response) 429 || Z.leb 500 (status response) then
                 let retryCount := default 0 (_retry originalRequest) in
                 if Z.ltb retryCount MAX_RETRIES then
                   let delay := RETRY_DELAY * 2 ^ retryCount in
                   logger warn ("Retrying request (" ++ pretty (retryCount + 1) ++ "/"
                                ++ pretty MAX_RETRIES ++ ") after " ++ pretty delay ++ "ms");;
                   sleep delay;;
                   client fuel' (with_retry originalRequest (retryCount + 1))
                 else throw err
               else throw err
           | _ => throw err
           end)
  end.

(** [this.client.request(config)], with fuel for every retry the
    counter still allows. *)
Definition client_request (config : AxiosRequestConfig) : Async AxiosResponse :=
  client (S (Z.to_nat (MAX_RETRIES - default 0 (_retry config)))) config.

(** [PowerBIClient.request] *)
Definition request (config : AxiosRequestConfig) : Async JsVal :=
  try_catch
    (response ← client_request config;
     ret (response_data response))
    (fun err =>
       match err with
       | AxiosThrown msg _ (Some response) =>
           throw (AppThrown (PowerBIError
             (js_or (opt_get (opt_get (response_data response) "error") "message") (JStr msg))
             (Some (status response))
             (response_data response)))
       | _ => throw err
       end).

End ApiClient.

(** ** Vocabulary of the properties *)

(** The world after more events, with clock and credential slot kept. *)
Definition extend (w : World) (evs : list Event) : World :=
  {| clock := clock w; tokenCache := tokenCache w; trace := trace w ++ evs |}.

(** The credential slot cannot serve the call: it is empty, or what it
    holds fails the test of [getAccessToken]. *)
Definition cache_miss (w : World) : Prop :=
  usable (clock w) (tokenCache w) = None.

(** The MSAL configuration each strategy builds. *)
Definition msalConfig_of (E : Env) (flow : Flow) : MsalConfig :=
  {| clientId := CLIENT_ID E;
     authority := "https://login.microsoftonline.com/" ++ TENANT_ID E;
     clientSecret :=
       match flow with
       | ClientCredential => Some (CLIENT_SECRET E)
       | DeviceCode => None
       end |}.

(** The trace at the moment the strategy calls the provider, when
    [getAccessToken] starts with trace [t] and misses the cache. *)
Definition trace_at_call (E : Env) (flow : Flow) (t : list Event) : list Event :=
  t ++ [Logged info "Acquiring new access token"; Constructed flow (msalConfig_of E flow)].

(** The provider's reply to the acquisition that [getAccessToken]
    starts in [w]; [None] when the configuration does not let any
    strategy get as far as asking. *)
Definition provider_reply (E : Env) (idp : IdentityProvider) (w : World) : option TokenReply :=
  if String.eqb (PBI_AUTH_MODE E) "sp" then
    if String.eqb (CLIENT_SECRET E) "" then None
    else Some (byClientCredential idp (clock w)
                 (trace_at_call E ClientCredential (trace w))
                 (msalConfig_of E ClientCredential) [PBI_SCOPE E])
  else if String.eqb (PBI_AUTH_MODE E) "device" then
    Some (snd (byDeviceCode idp (clock w)
                 (trace_at_call E DeviceCode (trace w))
                 (msalConfig_of E DeviceCode) [PBI_SCOPE E]))
  else None.

(** An acquisition started in [w] cannot succeed: unknown strategy or
    missing secret (no reply), a rejection, or a result without an
    access token. *)
Definition acquisition_fails (E : Env) (idp : IdentityProvider) (w : World) : Prop :=
  match provider_reply E idp w with
  | None => True
  | Some reply =>
      match settled reply with
      | Rejected _ => True
      | Fulfilled None => True
      | Fulfilled (Some r) => result_accessToken r = ""
      end
  end.

(** The configured strategy is one of the two and has what it needs. *)
Definition strategy_ready (E : Env) : Prop :=
  (PBI_AUTH_MODE E = "sp" /\ CLIENT_SECRET E <> "") \/ PBI_AUTH_MODE E = "device".

(** Going from [w] to [w'] started an acquisition: the attempt was
    announced and, when the strategy is ready, the provider was called
    exactly once. *)
Definition acquisition_performed (E : Env) (w w' : World) : Prop :=
  (exists evs, trace w' = (trace w ++ Logged info "Acquiring new access token" :: evs)%list) /\
  (strategy_ready E -> network_calls (trace w') = S (network_calls (trace w))).

(** The worlds the process can be in.  The credential slot is a
    module-level variable that is not exported: only [getAccessToken]
    and [clearTokenCache] write it.  Everything else the process does
    lets time pass and adds events. *)
Inductive Reachable (E : Env) (idp : IdentityProvider) : World -> Prop :=
| reach_start (t0 : Z) :
    Reachable E idp {| clock := t0; tokenCache := None; trace := [] |}
| reach_getAccessToken (w : World) :
    Reachable E idp w -> Reachable E idp (snd (getAccessToken E idp w))
| reach_clearTokenCache (w : World) :
    Reachable E idp w -> Reachable E idp (snd (clearTokenCache w))
| reach_elsewhere (w : World) (t : Z) (evs : list Event) :
    Reachable E idp w ->
    Reachable E idp {| clock := t; tokenCache := tokenCache w; trace := trace w ++ evs |}.

(** The message of the error raised when no strategy can ask. *)
Definition configuration_error (E : Env) : string :=
  if String.eqb (PBI_AUTH_MODE E) "sp" then
    "CLIENT_SECRET is required for service principal authentication"
  else "Invalid auth mode: " ++ PBI_AUTH_MODE E.

(** The message of the error raised when the provider rejects. *)
Definition rejection_error (E : Env) : string :=
  if String.eqb (PBI_AUTH_MODE E) "sp" then "Service principal authentication failed"
  else "Device code authentication failed".

(** What [getAccessToken] does from [w] when it misses the cache, by
    the provider's reply: the completion and the world it leaves. *)
Inductive AcquireOutcome (E : Env) (idp : IdentityProvider) (w : World)
  : Completion string -> World -> Prop :=
| acquire_unconfigured :
    provider_reply E idp w = None ->
    AcquireOutcome E idp w
      (Threw (AppThrown (AuthenticationError (configuration_error E))))
      (extend w [Logged info "Acquiring new access token"])
| acquire_rejected (reply : TokenReply) (reason : string) (evs : list Event) :
    provider_reply E idp w = Some reply ->
    settled reply = Rejected reason ->
    network_calls evs = 1%nat ->
    AcquireOutcome E idp w
      (Threw (AppThrown (AuthenticationError (rejection_error E))))
      {| clock := settledAt reply; tokenCache := tokenCache w;
         trace := trace w ++ Logged info "Acquiring new access token" :: evs |}
| acquire_no_token (reply : TokenReply) (r : option AuthenticationResult) (evs : list Event) :
    provider_reply E idp w = Some reply ->
    settled reply = Fulfilled r ->
    (forall r', r = Some r' -> result_accessToken r' = "") ->
    network_calls evs = 1%nat ->
    AcquireOutcome E idp w
      (Threw (AppThrown (AuthenticationError "Failed to acquire access token")))
      {| clock := settledAt reply; tokenCache := tokenCache w;
         trace := trace w ++ Logged info "Acquiring new access token" :: evs |}
| acquire_token (reply : TokenReply) (r : AuthenticationResult) (evs : list Event) :
    provider_reply E idp w = Some reply ->
    settled reply = Fulfilled (Some r) ->
    result_accessToken r <> "" ->
    network_calls evs = 1%nat ->
    AcquireOutcome E idp w
      (Returned (result_accessToken r))
      {| clock := settledAt reply;
         tokenCache := Some
           {| accessToken := result_accessToken r;
              expiresOn := default (settledAt reply + 3600 * 1000) (result_expiresOn r) |};
         trace := trace w ++ Logged info "Acquiring new access token" :: evs |}.

(** ** Scenarios

    The end-to-end scenario of the specification: application [app1],
    tenant [tenant1], secret [s3cr3t], and a provider that issues
    [TOK123] first and [TOK456] afterwards, each valid for 3600
    seconds. *)

Definition process_env_P7 : gmap string string :=
  list_to_map
    [("CLIENT_ID", "app1"); ("TENANT_ID", "tenant1"); ("CLIENT_SECRET", "s3cr3t");
     ("PBI_AUTH_MODE", "sp")].

(** The same deployment with the strategy selector left out. *)
Definition process_env_no_mode : gmap string string :=
  list_to_map
    [("CLIENT_ID", "app1"); ("TENANT_ID", "tenant1"); ("CLIENT_SECRET", "s3cr3t")].

(** No secret at all. *)
Definition process_env_no_secret : gmap string string :=
  list_to_map [("CLIENT_ID", "app1"); ("TENANT_ID", "tenant1"); ("PBI_AUTH_MODE", "sp")].

(** A selector that is not recognised. *)
Definition process_env_bad_mode : gmap string string :=
  list_to_map
    [("CLIENT_ID", "app1"); ("TENANT_ID", "tenant1"); ("CLIENT_SECRET", "s3cr3t");
     ("PBI_AUTH_MODE", "managed-identity")].

Definition provider_P7 : IdentityProvider :=
  {| byClientCredential := fun now history _ _ =>
       {| settled := Fulfilled (Some
            {| result_accessToken :=
                 if Nat.eqb (network_calls history) 0 then "TOK123" else "TOK456";
               result_expiresOn := Some (now + 3600 * 1000) |});
          settledAt := now |};
     byDeviceCode := fun now _ _ _ =>
       (None, {| settled := Rejected "authorization_declined"; settledAt := now |}) |}.

(** A provider whose results carry no expiry instant. *)
Definition provider_no_expiry : IdentityProvider :=
  {| byClientCredential := fun now _ _ _ =>
       {| settled := Fulfilled (Some
            {| result_accessToken := "TOK123"; result_expiresOn := None |});
          settledAt := now + 250 |};
     byDeviceCode := fun now _ _ _ =>
       (None, {| settled := Rejected "authorization_declined"; settledAt := now |}) |}.

Definition world_start : World :=
  {| clock := 1700000000000; tokenCache := None; trace := [] |}.

(** The world after the first call of the scenario. *)
Definition world_after_first : World :=
  snd (getAccessToken (env process_env_P7) provider_P7 world_start).

(** The same world fifty-nine minutes later: the token [TOK123] has
    one more minute to live. *)
Definition world_near_expiry : World :=
  {| clock := clock world_after_first + 59 * 60 * 1000;
     tokenCache := tokenCache world_after_first;
     trace := trace world_after_first |}.

(** A world whose cached credential expires in five minutes minus one
    second. *)
Definition world_at_boundary : World :=
  {| clock := 1700000000000;
     tokenCache := Some {| accessToken := "OLD"; expiresOn := 1700000000000 + 5 * 60 * 1000 - 1000 |};
     trace := [] |}.

(** A world whose cached credential has an hour to live. *)
Definition world_warm : World :=
  {| clock := 1700000000000;
     tokenCache := Some {| accessToken := "TOK123"; expiresOn := 1700000000000 + 3600 * 1000 |};
     trace := [] |}.

(** A report that does not exist: the API answers 404 with the usual
    error body. *)
Definition get_report : AxiosRequestConfig :=
  {| method := "GET"; url := "/groups/g1/reports/r1"; params := JUndefined;
     data := JUndefined; headers := [("Content-Type", "application/json")];
     _retry := None |}.

Definition not_found : AxiosResponse :=
  {| status := 404;
     response_data :=
       JObj [("error", JObj [("code", JStr "ItemNotFound");
                             ("message", JStr "Report not found")])] |}.

Definition transport_not_found : Transport :=
  fun now _ _ => {| outcome := Answered not_found; repliedAt := now + 120 |}.

(** A service that is down: every exchange is answered 503, with a
    body that is no JSON object. *)
Definition unavailable : AxiosResponse :=
  {| status := 503; response_data := JStr "Service Unavailable" |}.

Definition transport_unavailable : Transport :=
  fun now _ _ => {| outcome := Answered unavailable; repliedAt := now + 120 |}.

(** ** Observations on traces *)

Definition is_http (e : Event) : bool :=
  match e with
  | HttpCall _ _ => true
  | _ => false
  end.

(** The HTTP exchanges with the Power BI API. *)
Definition http_calls (t : list Event) : nat := length (List.filter is_http t).

(** The delays slept, in order. *)
Fixpoint sleeps (t : list Event) : list Z :=
  match t with
  | [] => []
  | Slept ms :: rest => ms :: sleeps rest
  | _ :: rest => sleeps rest
  end.

(** The lines written to the console, in order. *)
Fixpoint printed (t : list Event) : list string :=
  match t with
  | [] => []
  | Printed line :: rest => line :: printed rest
  | _ :: rest => printed rest
  end.

(** The delays of [n] retries in a row, the first one being retry
    number [k + 1]: [RETRY_DELAY * 2 ^ k], then twice that, and so on. *)
Fixpoint schedule (k : Z) (n : nat) : list Z :=
  match n with
  | O => []
  | S n' => RETRY_DELAY * 2 ^ k :: schedule (k + 1) n'
  end.

(** The value of a header, first entry first. *)
Fixpoint header (k : string) (hs : list (string * string)) : option string :=
  match hs with
  | [] => None
  | (k', v) :: rest => if String.eqb k' k then Some v else header k rest
  end.

(** An exchange that went out with a bearer token. *)
Definition authorized (e : Event) : Prop :=
  match e with
  | HttpCall config _ =>
      exists token,
        token <> "" /\ header "Authorization" (headers config) = Some ("Bearer " ++ token)
  | _ => True
  end.

(** What [getAccessToken] may add to the trace: log lines, client
    constructions and token calls; console lines under the device-code
    strategy only; never an HTTP exchange, never a sleep. *)
Definition token_event (E : Env) (e : Event) : Prop :=
  match e with
  | HttpCall _ _ | Slept _ => False
  | Printed _ => PBI_AUTH_MODE E = "device"
  | _ => True
  end.


(** The exchange a run of the client completes with: its last HTTP
    exchange, unless the client slept for a retry after it (the retry
    then made no exchange of its own: its token request failed). *)
Fixpoint completion_from (last : option HttpOutcome) (t : list Event) : option HttpOutcome :=
  match t with
  | [] => last
  | HttpCall _ o :: rest => completion_from (Some o) rest
  | Slept _ :: rest => completion_from None rest
  | _ :: rest => completion_from last rest
  end.

Definition completion (t : list Event) : option HttpOutcome := completion_from None t.

(** What was added to the trace between two worlds. *)
Definition events_since (w w' : World) : list Event :=
  skipn (length (trace w)) (trace w').

(** The transport never answers inside 2xx. *)
Definition never_2xx (net : Transport) : Prop :=
  forall now history config,
    exists r,
      outcome (net now history config) = Answered r /\ is_2xx (status r) = false.

(** An exchange in the trace holds what the transport answered. *)
Definition from_transport (net : Transport) (e : Event) : Prop :=
  match e with
  | HttpCall config o => exists now history, o = outcome (net now history config)
  | _ => True
  end.

(** What axios hands back, against the exchange its run completed
    with. *)
Definition outcome_matches (c : Completion AxiosResponse) (done : option HttpOutcome) : Prop :=
  match c with
  | Returned a => done = Some (Answered a) /\ is_2xx (status a) = true
  | Threw (AxiosThrown msg _ (Some r)) =>
      done = Some (Answered r) /\ is_2xx (status r) = false /\
      msg = "Request failed with status code " ++ pretty (status r)
  | Threw (AxiosThrown msg _ None) => done = Some (NoResponse msg)
  | Threw (AppThrown e) => done = None /\ exists m, e = AuthenticationError m
  | Threw (OtherThrown _) => False
  | Threw OutOfFuel => done = None
  end.

(** The configuration with another client secret. *)
Definition with_secret (E : Env) (secret : string) : Env :=
  {| CLIENT_ID := CLIENT_ID E; CLIENT_SECRET := secret; TENANT_ID := TENANT_ID E;
     API_KEY := API_KEY E; PORT := PORT E; PBI_SCOPE := PBI_SCOPE E;
     PBI_AUTH_MODE := PBI_AUTH_MODE E; CORS_ORIGINS := CORS_ORIGINS E;
     PBI_TOOLS_PATH := PBI_TOOLS_PATH E |}.

(** ** Start-up ([src/utils/env.ts], [src/index.ts]) *)

(** [validateEnv]: a plain [Error] when an identity is missing. *)
Definition validateEnv (E : Env) : Async unit :=
  (if String.eqb (CLIENT_ID E) "" then throw (OtherThrown "Missing CLIENT_ID") else ret tt);;
  (if String.eqb (TENANT_ID E) "" then throw (OtherThrown "Missing TENANT_ID") else ret tt).

(** [s.split(sep)] for a separator of one character. *)
Fixpoint split (sep : Ascii.ascii) (s : string) : list string :=
  match s with
  | EmptyString => [""]
  | String c rest =>
      if Ascii.eqb c sep then "" :: split sep rest
      else
        match split sep rest with
        | piece :: pieces => String c piece :: pieces
        | [] => [String c ""]
        end
  end.

(** The mode [main] reads off its arguments:
    [args.find((arg) => arg.startsWith('--mode='))], then
    [modeArg ? modeArg.split('=')[1] : 'mcp'].  [None] is
    [undefined]. *)
Definition mode_of (args : list string) : option string :=
  match List.find (fun arg => String.prefix "--mode=" arg) args with
  | Some modeArg =>
      if String.eqb modeArg "" then Some "mcp"
      else nth_error (split "="%char modeArg) 1
  | None => Some "mcp"
  end.



(** ** The HTTP front end ([src/server.ts]) *)

(** A request header as Node hands it over: absent, one value, or
    several. *)
Inductive HeaderValue : Type :=
| NoHeader
| OneHeader (v : string)
| ManyHeaders (vs : list string).

(** [!apiKey || apiKey !== env.API_KEY] *)
Definition key_refused (apiKey : HeaderValue) (expected : string) : bool :=
  match apiKey with
  | NoHeader => true
  | OneHeader v => String.eqb v "" || negb (String.eqb v expected)
  | ManyHeaders _ => true
  end.

Record Reply : Type := mkReply {
  reply_code : Z;
  reply_body : JsVal
}.

(** The [onRequest] hook that checks the API key.  [None]: the hook
    lets the request through; [Some r]: it has answered with [r]. *)
Definition apiKeyAuth (E : Env) (url : string) (apiKey : HeaderValue) : Async (option Reply) :=
  if String.prefix "/docs" url || String.prefix "/health" url
     || String.eqb url "/openapi.json" then ret None
  else if key_refused apiKey (API_KEY E) then
    logger warn "Unauthorized request";;
    ret (Some {| reply_code := 401;
                 reply_body := JObj [("error", JStr "Unauthorized");
                                     ("message", JStr "Invalid or missing API key")] |})
  else ret None.

(** What reaches the error handler: a validation error of zod, an
    error raised by the services, or any other error object, with its
    [statusCode] if it has one. *)
Inductive RouteError : Type :=
| ZodError (errors : JsVal)
| Raised (t : Thrown)
| PlainError (status_code : option Z) (msg : string).

Definition optional_string (o : option string) : JsVal :=
  match o with
  | Some s => JStr s
  | None => JUndefined
  end.

Definition internal_error (status_code : option Z) (msg : JsVal) : Reply :=
  {| reply_code :=
       match status_code with
       | Some c => if Z.eqb c 0 then 500 else c
       | None => 500
       end;
     reply_body := JObj [("error", JStr "Internal Server Error"); ("message", msg)] |}.

(** The handler installed with [setErrorHandler]. *)
Definition errorHandler (err : RouteError) : Async Reply :=
  logger error "Request error";;
  match err with
  | ZodError errors =>
      ret {| reply_code := 400;
             reply_body := JObj [("error", JStr "Validation Error"); ("details", errors)] |}
  | Raised (AppThrown e) =>
      if String.eqb (name e) "ZodError" then
        ret {| reply_code := 400;
               reply_body := JObj [("error", JStr "Validation Error");
                                   ("details", JUndefined)] |}
      else
        ret {| reply_code := statusCode e;
               reply_body := JObj [("error", JStr (name e)); ("message", message e);
                                   ("code", optional_string (code e));
                                   ("details", details e)] |}
  | Raised (AxiosThrown msg _ _) => ret (internal_error None (JStr msg))
  | Raised (OtherThrown reason) => ret (internal_error None (JStr reason))
  | Raised OutOfFuel => ret (internal_error None JUndefined)
  | PlainError status_code msg => ret (internal_error status_code (JStr msg))
  end.

(** [PowerBIClient.getWorkspace] *)
Definition getWorkspace (E : Env) (idp : IdentityProvider) (net : Transport)
    (workspaceId : string) : Async JsVal :=
  request E idp net
    {| method := "GET"; url := "/groups/" ++ workspaceId; params := JUndefined;
       data := JUndefined; headers := []; _retry := None |}.

(** One request, as Fastify takes it through what [createHTTPServer]
    has installed: the [onRequest] hooks in the order they were added,
    the log line first and the check of the API key second; then,
    unless the hook has answered, the handler of the route, whose
    result is sent with status 200, or the error handler on what the
    handler threw. *)
Definition serve (E : Env) (url : string) (apiKey : HeaderValue) (handler : Async JsVal)
  : Async Reply :=
  logger info "Incoming request";;
  refusal ← apiKeyAuth E url apiKey;
  match refusal with
  | Some r => ret r
  | None =>
      try_catch
        (body ← handler;
         ret {| reply_code := 200; reply_body := body |})
        (fun t => errorHandler (Raised t))
  end.

(** The route [GET /api/pbi/workspaces/:workspaceId] ([pbiRoutes],
    registered under the prefix [/api/pbi]): its handler is
    [getWorkspace] on the parameter.  [segment] is the end of the URL
    as it was sent, [workspaceId] what the router reads off it. *)
Definition route_getWorkspace (E : Env) (idp : IdentityProvider) (net : Transport)
    (segment workspaceId : string) (apiKey : HeaderValue) : Async Reply :=
  serve E ("/api/pbi/workspaces/" ++ segment) apiKey (getWorkspace E idp net workspaceId).

(** ** More scenarios *)

(** The deployment of the scenario under the device-code strategy,
    without any secret. *)
Definition process_env_device : gmap string string :=
  list_to_map
    [("CLIENT_ID", "app1"); ("TENANT_ID", "tenant1"); ("PBI_AUTH_MODE", "device")].

Definition device_prompt : DeviceCodeResponse :=
  {| verificationUri := "https://microsoft.com/devicelogin"; userCode := "ABCD-1234" |}.

(** A provider that hands out the prompt and is then told that the
    operator declined. *)
Definition provider_device_declined : IdentityProvider :=
  {| byClientCredential := fun now _ _ _ =>
       {| settled := Rejected "unauthorized_client"; settledAt := now |};
     byDeviceCode := fun now _ _ _ =>
       (Some device_prompt,
        {| settled := Rejected "authorization_declined"; settledAt := now + 60000 |}) |}.

(** The deployment of the scenario with an API key for the HTTP front
    end. *)
Definition process_env_api : gmap string string :=
  list_to_map
    [("CLIENT_ID", "app1"); ("TENANT_ID", "tenant1"); ("CLIENT_SECRET", "s3cr3t");
     ("PBI_AUTH_MODE", "sp"); ("API_KEY", "k3y")].

(** The same without the client secret. *)
Definition process_env_api_no_secret : gmap string string :=
  list_to_map
    [("CLIENT_ID", "app1"); ("TENANT_ID", "tenant1"); ("PBI_AUTH_MODE", "sp");
     ("API_KEY", "k3y")].

(** ** The pbi-tools wrapper ([src/services/pbiTools.ts],
    [src/utils/fsx.ts])

    The wrapper works on the machine it runs on: it probes and creates
    paths and has a shell run [pbi-tools].  These are effects of their
    own, recorded in a trace of their own next to the log lines; the
    file system and the shell are oracles over the time and that
    trace. *)

Inductive Chunk : Type :=
| OnStdout (text : string)
| OnStderr (text : string).

(** How a child process ends for its parent: the [error] event of a
    failed spawn, or the [close] event with the exit code ([null] when
    a signal ended it). *)
Inductive Ending : Type :=
| SpawnError (msg : string)
| Close (exit_code : option Z).

Record ChildRun : Type := mkChildRun {
  chunks : list Chunk;
  ending : Ending;
  endedAt : Z
}.

(** [Spawned command args] records the call
    [spawn(command, args, { shell: true, env: process.env })]: what
    then runs is a shell, on the line [shell_line command args]. *)
Inductive HostEvent : Type :=
| Core (e : Event)
| Accessed (path : string)
| MadeDir (path : string)
| Spawned (command : string) (args : list string).

Record Host : Type := mkHost {
  host_clock : Z;
  host_trace : list HostEvent
}.

(** The machine: [fs.access] succeeds or not, [fs.mkdir] succeeds or
    fails with a reason, and either settles at the time [fs_done]
    gives; the shell runs a command line as a [ChildRun]; and the pure
    path functions of Node with the working directory. *)
Record Machine : Type := mkMachine {
  access : Z -> list HostEvent -> string -> bool;
  mkdir : Z -> list HostEvent -> string -> option string;
  fs_done : Z -> list HostEvent -> string -> Z;
  run_shell : Z -> list HostEvent -> string -> ChildRun;
  path_join : list string -> string;
  path_dirname : string -> string;
  cwd : string
}.

(** The line Node hands to the shell under [shell: true]:
    [[command, ...args].join(' ')], nothing quoted or escaped. *)
Definition shell_line (command : string) (args : list string) : string :=
  String.concat " " (command :: args).

(** [spawn(command, args, { shell: true, env: process.env })]: the
    child is the shell on that line, in the environment of the server
    itself. *)
Definition spawn (M : Machine) (now : Z) (history : list HostEvent)
    (command : string) (args : list string) : ChildRun :=
  run_shell M now history (shell_line command args).

Definition Task (A : Type) : Type := Host -> Completion A * Host.

Definition task_ret {A} (a : A) : Task A := fun h => (Returned a, h).

Definition task_throw {A} (t : Thrown) : Task A := fun h => (Threw t, h).

Definition task_bind {A B} (m : Task A) (k : A -> Task B) : Task B :=
  fun h =>
    match m h with
    | (Returned a, h') => k a h'
    | (Threw t, h') => (Threw t, h')
    end.

Definition task_try {A} (m : Task A) (handler : Thrown -> Task A) : Task A :=
  fun h =>
    match m h with
    | (Returned a, h') => (Returned a, h')
    | (Threw t, h') => handler t h'
    end.

Declare Scope task_scope.
Delimit Scope task_scope with task.
Notation "x ← y ; z" := (task_bind y (fun x => z))
  (at level 20, y at level 100, z at level 200, only parsing) : task_scope.
Notation "y ;; z" := (task_bind y (fun _ => z))
  (at level 100, z at level 200, only parsing, right associativity) : task_scope.

Definition host_emit (e : HostEvent) : Task unit :=
  fun h => (Returned tt, {| host_clock := host_clock h; host_trace := host_trace h ++ [e] |}).

Definition host_logger (level : LogLevel) (msg : string) : Task unit :=
  host_emit (Core (Logged level msg)).

Definition host_now : Task Z := fun h => (Returned (host_clock h), h).

(** [new PBIToolsError(message, details?)] *)
Definition PBIToolsError (msg : string) (det : JsVal) : AppError :=
  {| name := "PBIToolsError"; message := JStr msg; statusCode := 500;
     code := Some "PBI_TOOLS_ERROR"; details := det |}.

(** A caught error kept as the [details] of another one: the object
    of its fields. *)
Definition error_value (t : Thrown) : JsVal :=
  match t with
  | AppThrown e =>
      JObj [("name", JStr (name e)); ("message", message e);
            ("statusCode", JNum (statusCode e)); ("code", optional_string (code e));
            ("details", details e)]
  | AxiosThrown msg _ _ => JObj [("name", JStr "AxiosError"); ("message", JStr msg)]
  | OtherThrown reason => JObj [("name", JStr "Error"); ("message", JStr reason)]
  | OutOfFuel => JUndefined
  end.

(** What the child wrote to each stream, chunk after chunk. *)
Fixpoint stdout_of (cs : list Chunk) : string :=
  match cs with
  | [] => ""
  | OnStdout text :: rest => text ++ stdout_of rest
  | OnStderr _ :: rest => stdout_of rest
  end.

Fixpoint stderr_of (cs : list Chunk) : string :=
  match cs with
  | [] => ""
  | OnStdout _ :: rest => stderr_of rest
  | OnStderr text :: rest => text ++ stderr_of rest
  end.

(** The calls of [spawn], each with its command and arguments. *)
Fixpoint spawned (t : list HostEvent) : list (string * list string) :=
  match t with
  | [] => []
  | Spawned command args :: rest => (command, args) :: spawned rest
  | _ :: rest => spawned rest
  end.

(** The lines the shell was run on, one for each call of [spawn]. *)
Definition shell_lines (t : list HostEvent) : list string :=
  map (fun call => shell_line (fst call) (snd call)) (spawned t).

(** The directories created. *)
Fixpoint made_dirs (t : list HostEvent) : list string :=
  match t with
  | [] => []
  | MadeDir path :: rest => path :: made_dirs rest
  | _ :: rest => made_dirs rest
  end.

Inductive Format : Type := PBIX | PBIT.

Definition format_name (f : Format) : string :=
  match f with
  | PBIX => "PBIX"
  | PBIT => "PBIT"
  end.

(** [format.toLowerCase()] *)
Definition format_lower (f : Format) : string :=
  match f with
  | PBIX => "pbix"
  | PBIT => "pbit"
  end.

Record ExtractOptions : Type := mkExtractOptions {
  filePath : string;
  outDir : option string;
  modelOnly : option bool
}.

Record CompileOptions : Type := mkCompileOptions {
  projectDir : string;
  outPath : option string;
  format : option Format
}.

(** [`${code}`] for an exit code. *)
Definition show_exit_code (c : option Z) : string :=
  match c with
  | Some n => pretty n
  | None => "null"
  end.

Section PbiTools.

Variable E : Env.
Variable M : Machine.

Local Open Scope task_scope.

(** [fileExists] *)
Definition fileExists (path : string) : Task bool :=
  fun h =>
    (host_emit (Accessed path);;
     (fun h' => (Returned tt, {| host_clock := fs_done M (host_clock h) (host_trace h) path;
                                 host_trace := host_trace h' |}));;
     task_ret (access M (host_clock h) (host_trace h) path)) h.

(** [ensureDir] *)
Definition ensureDir (dir : string) : Task unit :=
  fun h =>
    (host_emit (MadeDir dir);;
     (fun h' => (Returned tt, {| host_clock := fs_done M (host_clock h) (host_trace h) dir;
                                 host_trace := host_trace h' |}));;
     match mkdir M (host_clock h) (host_trace h) dir with
     | None => task_ret tt
     | Some reason => task_throw (OtherThrown reason)
     end) h.

(** [getTempDir] *)
Definition getTempDir (prefix : string) : Task string :=
  now ← host_now;
  task_ret (path_join M [cwd M; "tmp"; prefix ++ "-" ++ pretty now]).

(** The [data] handlers of [execute], chunk after chunk. *)
Fixpoint collect (cs : list Chunk) (stdout stderr : string) : Task (string * string) :=
  match cs with
  | [] => task_ret (stdout, stderr)
  | OnStdout text :: rest =>
      host_logger debug "pbi-tools stdout";;
      collect rest (stdout ++ text) stderr
  | OnStderr text :: rest =>
      host_logger debug "pbi-tools stderr";;
      collect rest stdout (stderr ++ text)
  end.

(** [execute].  The child is started with [shell: true]: [spawn] above
    hands the shell the command and the arguments as one line. *)
Definition execute (args : list string) : Task string :=
  fun h =>
    let run := spawn M (host_clock h) (host_trace h) (PBI_TOOLS_PATH E) args in
    (host_logger debug "Executing pbi-tools";;
     host_emit (Spawned (PBI_TOOLS_PATH E) args);;
     out ← collect (chunks run) "" "";
     (fun h' => (Returned tt, {| host_clock := endedAt run; host_trace := host_trace h' |}));;
     match ending run with
     | SpawnError msg =>
         host_logger error "pbi-tools process error";;
         task_throw (AppThrown (PBIToolsError ("Failed to spawn pbi-tools: " ++ msg) JUndefined))
     | Close exit_code =>
         match exit_code with
         | Some 0 => task_ret (fst out)
         | _ =>
             let errorMsg :=
               if negb (String.eqb (snd out) "") then snd out
               else if negb (String.eqb (fst out) "") then fst out
               else "Process exited with code " ++ show_exit_code exit_code in
             host_logger error "pbi-tools failed";;
             task_throw (AppThrown (PBIToolsError errorMsg JUndefined))
         end
     end) h.

(** [checkAvailability] *)
Definition checkAvailability : Task bool :=
  task_try
    (execute ["info"];;
     task_ret true)
    (fun _ => task_ret false).

(** [extract] *)
Definition extract (options : ExtractOptions) : Task string :=
  found ← fileExists (filePath options);
  (if negb found then
     task_throw (AppThrown (PBIToolsError ("File not found: " ++ filePath options) JUndefined))
   else task_ret tt);;
  outputDir ←
    (match outDir options with
     | Some d => if String.eqb d "" then getTempDir "extract" else task_ret d
     | None => getTempDir "extract"
     end);
  ensureDir outputDir;;
  host_logger info "Extracting PBIX with pbi-tools";;
  let args :=
    (["extract"; filePath options; "-extractFolder"; outputDir]
     ++ match modelOnly options with
        | Some true => ["-modelOnly"]
        | _ => []
        end)%list in
  task_try
    (execute args;;
     host_logger info "Extraction completed";;
     task_ret outputDir)
    (fun err =>
       task_throw (AppThrown (PBIToolsError "Failed to extract PBIX" (error_value err)))).

(** [compile] *)
Definition compile (options : CompileOptions) : Task string :=
  let format := default PBIX (format options) in
  found ← fileExists (projectDir options);
  (if negb found then
     task_throw (AppThrown (PBIToolsError
       ("Project directory not found: " ++ projectDir options) JUndefined))
   else task_ret tt);;
  outputPath ←
    (let temp :=
       dir ← getTempDir "compile";
       task_ret (path_join M [dir; "output." ++ format_lower format]) in
     match outPath options with
     | Some p => if String.eqb p "" then temp else task_ret p
     | None => temp
     end);
  ensureDir (path_dirname M outputPath);;
  host_logger info "Compiling project with pbi-tools";;
  let args :=
    ["compile"; projectDir options; "-outPath"; outputPath; "-format"; format_name format] in
  task_try
    (execute args;;
     created ← fileExists outputPath;
     (if negb created then
        task_throw (AppThrown (PBIToolsError "Output file was not created" JUndefined))
      else task_ret tt);;
     host_logger info "Compilation completed";;
     task_ret outputPath)
    (fun err =>
       task_throw (AppThrown (PBIToolsError "Failed to compile project" (error_value err)))).

(** [getInfo] *)
Definition getInfo : Task string :=
  task_try
    (execute ["info"])
    (fun err =>
       task_throw (AppThrown (PBIToolsError "Failed to get pbi-tools info" (error_value err)))).

(** The handler of the tool [checkPbiTools]
    ([src/mcp/tools/pbix.ts]): [{ success, available, info }]. *)
Definition checkPbiTools : Task JsVal :=
  available ← checkAvailability;
  info ← (if available then (text ← getInfo; task_ret (JStr text)) else task_ret JNull);
  task_ret (JObj [("success", JBool available); ("available", JBool available);
                  ("info", info)]).

End PbiTools.

(** ** Machines for the scenarios *)

Definition join_slash (parts : list string) : string := String.concat "/" parts.

Definition dirname_slash (path : string) : string :=
  String.concat "/" (removelast (split "/"%char path)).

(** A machine with the report file and the project folder, and a
    [pbi-tools] that answers and exits with 0 but writes no file. *)
Definition machine_ready : Machine :=
  {| access := fun _ _ path =>
       String.eqb path "/data/sales.pbix" || String.eqb path "/work/sales";
     mkdir := fun _ _ _ => None;
     fs_done := fun t _ _ => t + 5;
     run_shell := fun t _ _ =>
       {| chunks := [OnStdout "pbi-tools "; OnStderr "warning: preview build";
                     OnStdout "1.0.0"];
          ending := Close (Some 0);
          endedAt := t + 900 |};
     path_join := join_slash;
     path_dirname := dirname_slash;
     cwd := "/srv/app" |}.

(** The same machine without [pbi-tools]: the shell reports 127. *)
Definition machine_no_tool : Machine :=
  {| access := fun _ _ path =>
       String.eqb path "/data/sales.pbix" || String.eqb path "/work/sales";
     mkdir := fun _ _ _ => None;
     fs_done := fun t _ _ => t + 5;
     run_shell := fun t _ _ =>
       {| chunks := [OnStderr "pbi-tools: command not found"];
          ending := Close (Some 127);
          endedAt := t + 20 |};
     path_join := join_slash;
     path_dirname := dirname_slash;
     cwd := "/srv/app" |}.

(** A machine with the project folder, on which a run of the shell
    leaves every file asked of it. *)
Definition machine_compiling : Machine :=
  {| access := fun _ history path =>
       match spawned history with
       | [] => String.eqb path "/work/sales"
       | _ => true
       end;
     mkdir := fun _ _ _ => None;
     fs_done := fun t _ _ => t + 5;
     run_shell := fun t _ _ =>
       {| chunks := [OnStdout "Done."];
          ending := Close (Some 0);
          endedAt := t + 4000 |};
     path_join := join_slash;
     path_dirname := dirname_slash;
     cwd := "/srv/app" |}.

Definition host_start : Host := {| host_clock := 1700000000000; host_trace := [] |}.

Definition extract_sales : ExtractOptions :=
  {| filePath := "/data/sales.pbix"; outDir := Some "/work/out"; modelOnly := Some true |}.

Definition extract_fresh : ExtractOptions :=
  {| filePath := "/data/sales.pbix"; outDir := None; modelOnly := Some true |}.

Definition extract_lost : ExtractOptions :=
  {| filePath := "/data/lost.pbix"; outDir := None; modelOnly := None |}.

Definition compile_sales : CompileOptions :=
  {| projectDir := "/work/sales"; outPath := Some "/out/sales.pbix"; format := None |}.

Definition compile_template : CompileOptions :=
  {| projectDir := "/work/sales"; outPath := None; format := Some PBIT |}.

(** ** Proofs *)

Lemma network_calls_app (t u : list Event) :
  network_calls (t ++ u) = (network_calls t + network_calls u)%nat.
Proof. unfold network_calls. now rewrite List.filter_app, List.length_app. Qed.

Lemma constructions_app (t u : list Event) :
  constructions (t ++ u) = (constructions t + constructions u)%nat.
Proof. unfold constructions. now rewrite List.filter_app, List.length_app. Qed.

Lemma eqb_empty_false (s : string) : s <> "" -> String.eqb s "" = false.
Proof. intros H. now apply String.eqb_neq. Qed.

Lemma cache_miss_empty (w : World) : tokenCache w = None -> cache_miss w.
Proof. unfold cache_miss. now intros ->. Qed.

Lemma cache_miss_expired (w : World) (c : TokenCache) :
  tokenCache w = Some c -> expiresOn c <= clock w + 5 * 60 * 1000 -> cache_miss w.
Proof.
  intros Hc Hle. unfold cache_miss, usable, still_valid. rewrite Hc.
  now apply Z.ltb_ge in Hle as ->.
Qed.

(** Unfolding of the monad and of the primitive effects. *)
Ltac run :=
  cbv beta iota delta
    [getAccessToken acquireTokenServicePrincipal acquireTokenDeviceCode
     acquireTokenByClientCredential acquireTokenByDeviceCode deviceCodeCallback
     clearTokenCache settle new_client bind ret throw try_catch emit logger
     console_log read_tokenCache write_tokenCache resume_at Date_now extend] in *;
  cbn [clock tokenCache trace fst snd] in *.

(** The cache-hit path. *)
Lemma getAccessToken_hit (E : Env) (idp : IdentityProvider) (w : World) (c : TokenCache) :
  tokenCache w = Some c ->
  still_valid (clock w) c = true ->
  getAccessToken E idp w =
    (Returned (accessToken c), extend w [Logged debug "Using cached access token"]).
Proof.
  intros Hc Hv. run. unfold usable. rewrite Hc, Hv. cbn. now rewrite Hc.
Qed.

(** C1.  A credential cached with an expiry more than five minutes
    after the current time is returned as it is: [getAccessToken]
    returns exactly the cached token string, the only thing it does is
    log the cache hit, so no client is constructed, no acquisition
    strategy runs and nothing goes over the network; the slot keeps the
    credential. *)
Theorem getAccessToken_cache_hit
    (E : Env) (idp : IdentityProvider) (w : World) (c : TokenCache) :
  tokenCache w = Some c ->
  clock w + 5 * 60 * 1000 < expiresOn c ->
  exists w',
    getAccessToken E idp w = (Returned (accessToken c), w') /\
    trace w' = (trace w ++ [Logged debug "Using cached access token"])%list /\
    network_calls (trace w') = network_calls (trace w) /\
    constructions (trace w') = constructions (trace w) /\
    tokenCache w' = Some c /\
    clock w' = clock w.
Proof.
  intros Hc Hlt.
  assert (Hv : still_valid (clock w) c = true) by (now apply Z.ltb_lt).
  eexists. split; [apply (getAccessToken_hit E idp w c Hc Hv) |].
  unfold extend; cbn [trace clock tokenCache].
  rewrite network_calls_app, constructions_app. cbn.
  repeat split; auto with arith.
Qed.

(** The cache-miss path, case by case. *)
Lemma getAccessToken_miss (E : Env) (idp : IdentityProvider) (w : World) :
  cache_miss w ->
  AcquireOutcome E idp w (fst (getAccessToken E idp w)) (snd (getAccessToken E idp w)).
Proof.
  intros Hmiss. red in Hmiss.
  pose proof (acquire_unconfigured E idp w) as Hnone.
  pose proof (fun reply => acquire_rejected E idp w reply) as Hrej.
  pose proof (fun reply => acquire_no_token E idp w reply) as Hnot.
  pose proof (fun reply => acquire_token E idp w reply) as Htok.
  unfold provider_reply, configuration_error, rejection_error, trace_at_call, msalConfig_of in *.
  run. rewrite Hmiss.
  destruct (String.eqb (PBI_AUTH_MODE E) "sp") eqn:Hsp.
  - destruct (String.eqb (CLIENT_SECRET E) "") eqn:Hsec.
    + cbn. now apply Hnone.
    + cbn. rewrite <- !app_assoc. cbn [app].
      match goal with
      | |- context [settled ?r] => specialize (Hrej r); specialize (Hnot r);
                                   specialize (Htok r); destruct (settled r) as [[r' |] | reason]
      end; cbn.
      * destruct (String.eqb (result_accessToken r') "") eqn:Htoken; cbn.
        -- eapply Hnot; eauto.
           intros r'' [= <-]. now apply String.eqb_eq.
        -- rewrite <- !app_assoc. cbn [app].
           eapply Htok; eauto. now apply String.eqb_neq.
      * eapply Hnot; eauto. discriminate.
      * rewrite <- !app_assoc. cbn [app]. eapply Hrej; eauto.
  - destruct (String.eqb (PBI_AUTH_MODE E) "device") eqn:Hdev.
    + cbn. rewrite <- !app_assoc. cbn [app].
      match goal with
      | |- context [byDeviceCode ?i ?t ?h ?c ?s] =>
          destruct (byDeviceCode i t h c s) as [prompt reply]
      end.
      cbn [snd] in *.
      specialize (Hrej reply); specialize (Hnot reply); specialize (Htok reply).
      destruct prompt as [response |]; cbn; rewrite <- ?app_assoc; cbn [app];
        (destruct (settled reply) as [[r' |] | reason]; cbn;
         [ destruct (String.eqb (result_accessToken r') "") eqn:Htoken; cbn;
           [ eapply Hnot; eauto; intros r'' [= <-]; now apply String.eqb_eq
           | rewrite <- ?app_assoc; cbn [app];
             eapply Htok; eauto; now apply String.eqb_neq ]
         | eapply Hnot; eauto; discriminate
         | rewrite <- ?app_assoc; cbn [app]; eapply Hrej; eauto ]).
    + cbn. now apply Hnone.
Qed.

Lemma usable_Some (now : Z) (cached : option TokenCache) (c : TokenCache) :
  usable now cached = Some c <-> cached = Some c /\ now + 5 * 60 * 1000 < expiresOn c.
Proof.
  unfold usable, still_valid. split.
  - destruct cached as [c' |]; [| discriminate].
    destruct (Z.ltb_spec (now + 5 * 60 * 1000) (expiresOn c')); [| discriminate].
    now intros [= <-].
  - intros [-> Hlt]. now apply Z.ltb_lt in Hlt as ->.
Qed.

(** Every call either hits the cache or misses it. *)
Lemma hit_or_miss (w : World) :
  (exists c, tokenCache w = Some c /\ still_valid (clock w) c = true) \/ cache_miss w.
Proof.
  unfold cache_miss, usable.
  destruct (tokenCache w) as [c |]; [| now right].
  destruct (still_valid (clock w) c) eqn:Hv; [left; eauto | now right].
Qed.

Lemma not_ready_no_reply (E : Env) (idp : IdentityProvider) (w : World) :
  ~ strategy_ready E -> provider_reply E idp w = None.
Proof.
  unfold strategy_ready, provider_reply. intros Hnot.
  destruct (String.eqb_spec (PBI_AUTH_MODE E) "sp") as [Hsp | Hsp].
  - destruct (String.eqb_spec (CLIENT_SECRET E) "") as [Hsec | Hsec]; [reflexivity |].
    exfalso. apply Hnot. now left.
  - destruct (String.eqb_spec (PBI_AUTH_MODE E) "device") as [Hdev | Hdev]; [| reflexivity].
    exfalso. apply Hnot. now right.
Qed.

Lemma ready_reply (E : Env) (idp : IdentityProvider) (w : World) :
  strategy_ready E -> provider_reply E idp w <> None.
Proof.
  unfold strategy_ready, provider_reply. intros [[Hsp Hsec] | Hdev].
  - rewrite Hsp. cbn. now rewrite (eqb_empty_false _ Hsec).
  - rewrite Hdev. cbn. discriminate.
Qed.

(** A miss performs an acquisition. *)
Lemma miss_performs (E : Env) (idp : IdentityProvider) (w : World) :
  cache_miss w -> acquisition_performed E w (snd (getAccessToken E idp w)).
Proof.
  intros Hmiss. unfold acquisition_performed.
  destruct (getAccessToken_miss E idp w Hmiss) as [Hnone | ? ? evs ? ? Hn | ? ? evs ? ? ? Hn | ? ? evs ? ? ? Hn];
    cbn [trace extend].
  - split; [now exists [] |].
    intros Hready. now apply (ready_reply E idp w) in Hready.
  - split; [now exists evs |]. intros _.
    rewrite network_calls_app. change (network_calls (Logged info "Acquiring new access token" :: evs))
      with (network_calls evs). lia.
  - split; [now exists evs |]. intros _.
    rewrite network_calls_app. change (network_calls (Logged info "Acquiring new access token" :: evs))
      with (network_calls evs). lia.
  - split; [now exists evs |]. intros _.
    rewrite network_calls_app. change (network_calls (Logged info "Acquiring new access token" :: evs))
      with (network_calls evs). lia.
Qed.

(** What a call leaves in the credential slot: what was there, or a
    credential with the non-empty token the provider has just issued. *)
Lemma getAccessToken_slot (E : Env) (idp : IdentityProvider) (w : World) :
  tokenCache (snd (getAccessToken E idp w)) = tokenCache w \/
  exists reply r,
    provider_reply E idp w = Some reply /\
    result_accessToken r <> "" /\
    tokenCache (snd (getAccessToken E idp w)) =
      Some {| accessToken := result_accessToken r;
              expiresOn := default (settledAt reply + 3600 * 1000) (result_expiresOn r) |}.
Proof.
  destruct (hit_or_miss w) as [(c & Hc & Hv) | Hmiss].
  - left. now rewrite (getAccessToken_hit E idp w c Hc Hv).
  - destruct (getAccessToken_miss E idp w Hmiss) as [| | | reply r evs Hreply Hs Hne Hn];
      cbn [tokenCache extend]; try (now left).
    right. exists reply, r. auto.
Qed.

(** Invariant: a cached token is never the empty string. *)
Lemma reachable_token_nonempty (E : Env) (idp : IdentityProvider) (w : World) :
  Reachable E idp w -> forall c, tokenCache w = Some c -> accessToken c <> "".
Proof.
  induction 1 as [t0 | w Hw IH | w Hw IH | w t evs Hw IH]; cbn [tokenCache].
  - discriminate.
  - destruct (getAccessToken_slot E idp w) as [-> | (reply & r & _ & Hne & ->)]; [exact IH |].
    now intros c [= <-].
  - discriminate.
  - exact IH.
Qed.

(** Invariant: without a ready strategy the slot stays empty. *)
Lemma reachable_not_ready_empty (E : Env) (idp : IdentityProvider) (w : World) :
  ~ strategy_ready E -> Reachable E idp w -> tokenCache w = None.
Proof.
  intros Hnot. induction 1 as [t0 | w Hw IH | w Hw IH | w t evs Hw IH]; cbn [tokenCache]; auto.
  destruct (getAccessToken_slot E idp w) as [-> | (reply & r & Hreply & _)]; [exact IH |].
  now rewrite (not_ready_no_reply E idp w Hnot) in Hreply.
Qed.

(** Without a ready strategy every call fails the same way: one log
    line, the configuration error, nothing else. *)
Lemma not_ready_fails (E : Env) (idp : IdentityProvider) (w : World) :
  ~ strategy_ready E ->
  Reachable E idp w ->
  getAccessToken E idp w =
    (Threw (AppThrown (AuthenticationError (configuration_error E))),
     extend w [Logged info "Acquiring new access token"]).
Proof.
  intros Hnot Hw.
  pose proof (reachable_not_ready_empty E idp w Hnot Hw) as Hempty.
  pose proof (getAccessToken_miss E idp w (cache_miss_empty w Hempty)) as Hout.
  rewrite (surjective_pairing (getAccessToken E idp w)).
  inversion Hout as [Hnone Hc Hw' | reply ? ? Hreply | reply ? ? Hreply | reply ? ? Hreply];
    try (now rewrite (not_ready_no_reply E idp w Hnot) in Hreply).
  reflexivity.
Qed.

(** C2.  From any world the process can be in, [getAccessToken] either
    returns a non-empty token that is sound (the cached one with more
    than five minutes left, or the one the provider has just issued in
    this call, which is then what the slot holds) or raises an
    [AuthenticationError] and leaves the credential slot as it was.
    Whenever the cache cannot serve the call and the acquisition fails
    (unknown strategy, missing secret, rejection by the provider, a
    result without access token), it is the second: no stale or partial
    credential is returned. *)
Theorem getAccessToken_token_or_error
    (E : Env) (idp : IdentityProvider) (w : World) :
  Reachable E idp w ->
  ((exists token c,
      fst (getAccessToken E idp w) = Returned token /\
      token <> "" /\
      tokenCache (snd (getAccessToken E idp w)) = Some c /\
      accessToken c = token /\
      ((tokenCache w = Some c /\ clock w + 5 * 60 * 1000 < expiresOn c) \/
       (cache_miss w /\
        exists reply r,
          provider_reply E idp w = Some reply /\
          settled reply = Fulfilled (Some r) /\
          result_accessToken r = token))) \/
   (exists msg,
      fst (getAccessToken E idp w) = Threw (AppThrown (AuthenticationError msg)) /\
      tokenCache (snd (getAccessToken E idp w)) = tokenCache w)) /\
  (cache_miss w -> acquisition_fails E idp w ->
   exists msg,
     fst (getAccessToken E idp w) = Threw (AppThrown (AuthenticationError msg)) /\
     tokenCache (snd (getAccessToken E idp w)) = tokenCache w).
Proof.
  intros Hw. split.
  - destruct (hit_or_miss w) as [(c & Hc & Hv) | Hmiss].
    + left. exists (accessToken c), c.
      rewrite (getAccessToken_hit E idp w c Hc Hv). cbn [fst snd extend tokenCache].
      repeat split; auto.
      * now apply (reachable_token_nonempty E idp w Hw).
      * left. split; [exact Hc |]. now apply Z.ltb_lt.
    + destruct (getAccessToken_miss E idp w Hmiss)
        as [Hnone | reply reason evs Hreply Hs Hn
            | reply r evs Hreply Hs Hr Hn | reply r evs Hreply Hs Hne Hn].
      * right. eexists. split; reflexivity.
      * right. eexists. split; reflexivity.
      * right. eexists. split; reflexivity.
      * left. eexists _, _. cbn [tokenCache].
        split; [reflexivity |]. split; [exact Hne |].
        split; [reflexivity |]. split; [reflexivity |].
        right. split; [exact Hmiss |]. now exists reply, r.
  - intros Hmiss Hfail. unfold acquisition_fails in Hfail.
    destruct (getAccessToken_miss E idp w Hmiss)
      as [Hnone | reply reason evs Hreply Hs Hn
          | reply r evs Hreply Hs Hr Hn | reply r evs Hreply Hs Hne Hn];
      try (eexists; split; reflexivity).
    rewrite Hreply, Hs in Hfail. contradiction.
Qed.

(** C4.  With the service-principal strategy and no client secret,
    every call of [getAccessToken] fails with the [AuthenticationError]
    about the missing secret; all it does before is announce the
    attempt in the log, so no identity-provider client is constructed
    and nothing goes over the network. *)
Theorem getAccessToken_missing_secret
    (E : Env) (idp : IdentityProvider) (w : World) :
  Reachable E idp w ->
  PBI_AUTH_MODE E = "sp" ->
  CLIENT_SECRET E = "" ->
  exists w',
    getAccessToken E idp w =
      (Threw (AppThrown (AuthenticationError
         "CLIENT_SECRET is required for service principal authentication")), w') /\
    trace w' = (trace w ++ [Logged info "Acquiring new access token"])%list /\
    network_calls (trace w') = network_calls (trace w) /\
    constructions (trace w') = constructions (trace w) /\
    tokenCache w' = tokenCache w.
Proof.
  intros Hw Hsp Hsec.
  assert (Hnot : ~ strategy_ready E).
  { intros [[_ Hne] | Hdev]; [contradiction | rewrite Hsp in Hdev; discriminate]. }
  exists (extend w [Logged info "Acquiring new access token"]).
  rewrite (not_ready_fails E idp w Hnot Hw).
  unfold configuration_error, extend. rewrite Hsp. cbn [String.eqb trace tokenCache].
  rewrite network_calls_app, constructions_app. cbn.
  repeat split; auto with arith.
Qed.

(** C5.  With a strategy selector that is neither ['sp'] nor
    ['device'], every call of [getAccessToken] fails with the
    [AuthenticationError] naming the selector; nothing goes over the
    network and no client is constructed. *)
Theorem getAccessToken_unknown_strategy
    (E : Env) (idp : IdentityProvider) (w : World) :
  Reachable E idp w ->
  PBI_AUTH_MODE E <> "sp" ->
  PBI_AUTH_MODE E <> "device" ->
  exists w',
    getAccessToken E idp w =
      (Threw (AppThrown (AuthenticationError ("Invalid auth mode: " ++ PBI_AUTH_MODE E))),
       w') /\
    trace w' = (trace w ++ [Logged info "Acquiring new access token"])%list /\
    network_calls (trace w') = network_calls (trace w) /\
    constructions (trace w') = constructions (trace w) /\
    tokenCache w' = tokenCache w.
Proof.
  intros Hw Hsp Hdev.
  assert (Hnot : ~ strategy_ready E).
  { intros [[Heq _] | Heq]; contradiction. }
  exists (extend w [Logged info "Acquiring new access token"]).
  rewrite (not_ready_fails E idp w Hnot Hw).
  unfold configuration_error, extend.
  apply String.eqb_neq in Hsp. rewrite Hsp. cbn [trace tokenCache].
  rewrite network_calls_app, constructions_app. cbn.
  repeat split; auto with arith.
Qed.

(** A miss answered with a token: the call returns it and caches it. *)
Lemma getAccessToken_issued
    (E : Env) (idp : IdentityProvider) (w : World)
    (reply : TokenReply) (r : AuthenticationResult) :
  cache_miss w ->
  provider_reply E idp w = Some reply ->
  settled reply = Fulfilled (Some r) ->
  result_accessToken r <> "" ->
  exists evs,
    network_calls evs = 1%nat /\
    getAccessToken E idp w =
      (Returned (result_accessToken r),
       {| clock := settledAt reply;
          tokenCache := Some
            {| accessToken := result_accessToken r;
               expiresOn := default (settledAt reply + 3600 * 1000) (result_expiresOn r) |};
          trace := trace w ++ Logged info "Acquiring new access token" :: evs |}).
Proof.
  intros Hmiss Hreply Hs Hne.
  rewrite (surjective_pairing (getAccessToken E idp w)).
  destruct (getAccessToken_miss E idp w Hmiss)
    as [Hnone | reply' reason evs Hreply' Hs' Hn
        | reply' r' evs Hreply' Hs' Hr Hn | reply' r' evs Hreply' Hs' Hne' Hn];
    try congruence.
  - rewrite Hreply in Hreply'. injection Hreply' as <-.
    rewrite Hs in Hs'. injection Hs' as <-.
    now specialize (Hr r eq_refl).
  - rewrite Hreply in Hreply'. injection Hreply' as <-.
    rewrite Hs in Hs'. injection Hs' as <-.
    now exists evs.
Qed.

(** A miss that returns a token got it from the provider. *)
Lemma getAccessToken_returned
    (E : Env) (idp : IdentityProvider) (w w1 : World) (token : string) :
  cache_miss w ->
  getAccessToken E idp w = (Returned token, w1) ->
  exists exp,
    tokenCache w1 = Some {| accessToken := token; expiresOn := exp |} /\
    network_calls (trace w1) = S (network_calls (trace w)).
Proof.
  intros Hmiss Hcall.
  pose proof (getAccessToken_miss E idp w Hmiss) as Hout.
  rewrite Hcall in Hout. cbn [fst snd] in Hout.
  inversion Hout as [| | | reply r evs Hreply Hs Hne Hn Htok Hw1].
  eexists. cbn [tokenCache trace]. split; [reflexivity |].
  rewrite network_calls_app.
  change (network_calls (Logged info "Acquiring new access token" :: evs))
    with (network_calls evs). lia.
Qed.

(** Served from the cache: a later world with the same slot. *)
Lemma served_from_cache
    (E : Env) (idp : IdentityProvider) (w2 : World) (token : string) (exp : Z) :
  tokenCache w2 = Some {| accessToken := token; expiresOn := exp |} ->
  clock w2 + 5 * 60 * 1000 < exp ->
  getAccessToken E idp w2 =
    (Returned token, extend w2 [Logged debug "Using cached access token"]).
Proof.
  intros Hc Hlt.
  apply (getAccessToken_hit E idp w2 _ Hc). now apply Z.ltb_lt.
Qed.

(** C3, as stated, fails: in the scenario of the specification the
    first call caches [TOK123], valid for 3600 seconds; a call 59
    minutes later is still inside that validity window, yet it does
    not return [TOK123]: it goes to the provider a second time and
    returns [TOK456]. *)
Lemma validity_window_counterexample :
  fst (getAccessToken (env process_env_P7) provider_P7 world_start) = Returned "TOK123" /\
  tokenCache world_after_first =
    Some {| accessToken := "TOK123"; expiresOn := clock world_after_first + 3600 * 1000 |} /\
  tokenCache world_near_expiry = tokenCache world_after_first /\
  clock world_after_first <= clock world_near_expiry < clock world_after_first + 3600 * 1000 /\
  fst (getAccessToken (env process_env_P7) provider_P7 world_near_expiry) <> Returned "TOK123" /\
  fst (getAccessToken (env process_env_P7) provider_P7 world_near_expiry) = Returned "TOK456" /\
  network_calls (trace (snd (getAccessToken (env process_env_P7) provider_P7 world_near_expiry)))
    = S (network_calls (trace world_near_expiry)).
Proof.
  vm_compute. repeat split; try reflexivity; try discriminate.
Qed.

(** C3, amended.  A successful acquisition (a miss on which the
    provider hands out a token) returns that token and overwrites the
    credential slot with it, whatever the slot held, together with the
    expiry the provider gave (an hour after its reply when it gave
    none), at the price of one provider call.  Any later call made
    while more than five minutes of the new token's validity remain
    returns that token from the cache and does nothing but log the
    hit.  In particular, when the provider's token is valid for 3600
    seconds, a second call in immediate succession returns the same
    token, and the two calls together made exactly one provider
    call. *)
Theorem fresh_token_replaces_cache
    (E : Env) (idp : IdentityProvider) (w : World)
    (reply : TokenReply) (r : AuthenticationResult) :
  cache_miss w ->
  provider_reply E idp w = Some reply ->
  settled reply = Fulfilled (Some r) ->
  result_accessToken r <> "" ->
  exists w1,
    getAccessToken E idp w = (Returned (result_accessToken r), w1) /\
    clock w1 = settledAt reply /\
    tokenCache w1 =
      Some {| accessToken := result_accessToken r;
              expiresOn := default (settledAt reply + 3600 * 1000) (result_expiresOn r) |} /\
    network_calls (trace w1) = S (network_calls (trace w)) /\
    (forall w2,
       tokenCache w2 = tokenCache w1 ->
       clock w2 + 5 * 60 * 1000
         < default (settledAt reply + 3600 * 1000) (result_expiresOn r) ->
       getAccessToken E idp w2 =
         (Returned (result_accessToken r),
          extend w2 [Logged debug "Using cached access token"])) /\
    (result_expiresOn r = Some (settledAt reply + 3600 * 1000) ->
     exists w2,
       getAccessToken E idp w1 = (Returned (result_accessToken r), w2) /\
       tokenCache w2 = tokenCache w1 /\
       network_calls (trace w2) = S (network_calls (trace w))).
Proof.
  intros Hmiss Hreply Hs Hne.
  destruct (getAccessToken_issued E idp w reply r Hmiss Hreply Hs Hne) as (evs & Hn & Hcall).
  assert (Hnet : network_calls (trace w ++ Logged info "Acquiring new access token" :: evs)
                 = S (network_calls (trace w))).
  { rewrite network_calls_app.
    change (network_calls (Logged info "Acquiring new access token" :: evs))
      with (network_calls evs). lia. }
  eexists. split; [exact Hcall |]. cbn [clock tokenCache trace].
  split; [reflexivity |]. split; [reflexivity |]. split; [exact Hnet |]. split.
  - intros w2 Hsame Hlt.
    now apply served_from_cache
      with (exp := default (settledAt reply + 3600 * 1000) (result_expiresOn r)).
  - intros Hexp. eexists. split; [| split].
    + apply served_from_cache
        with (exp := default (settledAt reply + 3600 * 1000) (result_expiresOn r));
        [reflexivity |].
      rewrite Hexp. cbn. lia.
    + reflexivity.
    + unfold extend; cbn [trace]. rewrite network_calls_app, Hnet. cbn. lia.
Qed.

(** C6.  A cached credential whose expiry is at most five minutes
    after the current time (five minutes minus one second, say) is not
    served: the call takes the acquisition path exactly as described
    by [AcquireOutcome], announcing the attempt and, when the strategy
    is ready, calling the provider once. *)
Theorem expired_credential_reacquires
    (E : Env) (idp : IdentityProvider) (w : World) (c : TokenCache) :
  tokenCache w = Some c ->
  expiresOn c <= clock w + 5 * 60 * 1000 ->
  acquisition_performed E w (snd (getAccessToken E idp w)) /\
  AcquireOutcome E idp w (fst (getAccessToken E idp w)) (snd (getAccessToken E idp w)) /\
  (forall reply r,
     provider_reply E idp w = Some reply ->
     settled reply = Fulfilled (Some r) ->
     result_accessToken r <> "" ->
     fst (getAccessToken E idp w) = Returned (result_accessToken r) /\
     tokenCache (snd (getAccessToken E idp w)) =
       Some {| accessToken := result_accessToken r;
               expiresOn := default (settledAt reply + 3600 * 1000) (result_expiresOn r) |}).
Proof.
  intros Hc Hle.
  pose proof (cache_miss_expired w c Hc Hle) as Hmiss.
  split; [now apply miss_performs |].
  split; [now apply getAccessToken_miss |].
  intros reply r Hreply Hs Hne.
  destruct (getAccessToken_issued E idp w reply r Hmiss Hreply Hs Hne) as (evs & _ & ->).
  now split.
Qed.

(** C7.  [clearTokenCache] always returns normally and empties the
    slot, whatever it held.  Whenever [getAccessToken] is called next
    (at any later time, after any other activity), it misses the cache
    and takes the acquisition path. *)
Theorem clearTokenCache_forces_acquisition
    (E : Env) (idp : IdentityProvider) (w : World) :
  exists w0,
    clearTokenCache w = (Returned tt, w0) /\
    tokenCache w0 = None /\
    forall (t : Z) (evs : list Event),
      let w1 := {| clock := t; tokenCache := tokenCache w0; trace := trace w0 ++ evs |} in
      cache_miss w1 /\
      acquisition_performed E w1 (snd (getAccessToken E idp w1)) /\
      AcquireOutcome E idp w1 (fst (getAccessToken E idp w1)) (snd (getAccessToken E idp w1)).
Proof.
  eexists. split; [reflexivity |]. split; [reflexivity |].
  intros t evs w1.
  assert (Hmiss : cache_miss w1) by (now apply cache_miss_empty).
  split; [exact Hmiss |].
  split; [now apply miss_performs | now apply getAccessToken_miss].
Qed.

(** C10.  When the acquisition result carries a token and no expiry
    instant, the credential is cached with an expiry of exactly 3600
    seconds after the time of caching.  Every call made less than 55
    minutes after that time is served the token from the cache; at 55
    minutes the cache no longer serves. *)
Theorem missing_expiry_defaults_to_one_hour
    (E : Env) (idp : IdentityProvider) (w : World)
    (reply : TokenReply) (r : AuthenticationResult) :
  cache_miss w ->
  provider_reply E idp w = Some reply ->
  settled reply = Fulfilled (Some r) ->
  result_accessToken r <> "" ->
  result_expiresOn r = None ->
  exists w1,
    getAccessToken E idp w = (Returned (result_accessToken r), w1) /\
    clock w1 = settledAt reply /\
    tokenCache w1 =
      Some {| accessToken := result_accessToken r; expiresOn := clock w1 + 3600 * 1000 |} /\
    (forall w2,
       tokenCache w2 = tokenCache w1 ->
       clock w2 < clock w1 + 55 * 60 * 1000 ->
       getAccessToken E idp w2 =
         (Returned (result_accessToken r),
          extend w2 [Logged debug "Using cached access token"])) /\
    (forall w2,
       tokenCache w2 = tokenCache w1 ->
       clock w1 + 55 * 60 * 1000 <= clock w2 ->
       cache_miss w2).
Proof.
  intros Hmiss Hreply Hs Hne Hexp.
  destruct (getAccessToken_issued E idp w reply r Hmiss Hreply Hs Hne) as (evs & _ & Hcall).
  rewrite Hexp in Hcall. cbn [default] in Hcall.
  eexists. split; [exact Hcall |]. cbn [clock tokenCache].
  split; [reflexivity |]. split; [reflexivity |]. split.
  - intros w2 Hsame Hlt.
    apply served_from_cache with (exp := settledAt reply + 3600 * 1000); [exact Hsame | lia].
  - intros w2 Hsame Hle.
    apply cache_miss_expired with (c := {| accessToken := result_accessToken r;
                                           expiresOn := settledAt reply + 3600 * 1000 |});
      [exact Hsame | cbn [expiresOn]; lia].
Qed.

(** C8, as stated, fails: with the strategy selector missing from the
    environment (and a secret configured) the call raises nothing; it
    goes to the provider and returns the token. *)
Lemma missing_selector_counterexample :
  process_env_no_mode !! "PBI_AUTH_MODE" = None /\
  fst (getAccessToken (env process_env_no_mode) provider_P7 world_start) = Returned "TOK123" /\
  network_calls
    (trace (snd (getAccessToken (env process_env_no_mode) provider_P7 world_start))) = 1%nat.
Proof. vm_compute. repeat split; reflexivity. Qed.

Lemma invalid_mode_message_distinct (E : Env) (mode : string) :
  PBI_AUTH_MODE E = "sp" ->
  AuthenticationError (configuration_error E) <> AuthenticationError ("Invalid auth mode: " ++ mode) /\
  AuthenticationError (rejection_error E) <> AuthenticationError ("Invalid auth mode: " ++ mode) /\
  AuthenticationError "Failed to acquire access token"
    <> AuthenticationError ("Invalid auth mode: " ++ mode).
Proof.
  intros Hsp. unfold configuration_error, rejection_error, AuthenticationError.
  rewrite Hsp. cbn. repeat split; discriminate.
Qed.

(** C8, amended.  When the strategy selector is missing from the
    environment, the configuration falls back to ['sp'], the
    service-principal strategy.  [getAccessToken] then never raises
    the invalid-selector error: on a cache miss it calls the provider
    once when a client secret is configured and fails with the
    missing-secret [AuthenticationError] otherwise. *)
Theorem missing_selector_defaults_to_sp
    (process_env : gmap string string) (idp : IdentityProvider) (w : World) :
  process_env !! "PBI_AUTH_MODE" = None ->
  PBI_AUTH_MODE (env process_env) = "sp" /\
  (forall mode,
     fst (getAccessToken (env process_env) idp w) <>
       Threw (AppThrown (AuthenticationError ("Invalid auth mode: " ++ mode)))) /\
  (cache_miss w ->
   CLIENT_SECRET (env process_env) <> "" ->
   network_calls (trace (snd (getAccessToken (env process_env) idp w)))
     = S (network_calls (trace w))) /\
  (cache_miss w ->
   CLIENT_SECRET (env process_env) = "" ->
   getAccessToken (env process_env) idp w =
     (Threw (AppThrown (AuthenticationError
        "CLIENT_SECRET is required for service principal authentication")),
      extend w [Logged info "Acquiring new access token"])).
Proof.
  intros Hunset.
  assert (Hsp : PBI_AUTH_MODE (env process_env) = "sp").
  { cbn. unfold env_or. now rewrite Hunset. }
  split; [exact Hsp |]. split; [| split].
  - intros mode Heq.
    destruct (invalid_mode_message_distinct (env process_env) mode Hsp) as (Hc & Hr & Hf).
    destruct (hit_or_miss w) as [(c & Hc' & Hv) | Hmiss].
    + now rewrite (getAccessToken_hit _ idp w c Hc' Hv) in Heq.
    + pose proof (getAccessToken_miss (env process_env) idp w Hmiss) as Hout.
      rewrite Heq in Hout.
      inversion Hout as [? Hm | ? ? ? ? ? ? Hm | ? ? ? ? ? ? ? Hm | ]; congruence.
  - intros Hmiss Hsec.
    apply (miss_performs (env process_env) idp w Hmiss). now left.
  - intros Hmiss Hsec.
    pose proof (getAccessToken_miss (env process_env) idp w Hmiss) as Hout.
    rewrite (surjective_pairing (getAccessToken (env process_env) idp w)).
    assert (Hnone : provider_reply (env process_env) idp w = None).
    { unfold provider_reply. rewrite Hsp, Hsec. reflexivity. }
    inversion Hout as [? Hc Hw' | ? ? ? Hreply | ? ? ? Hreply | ? ? ? Hreply];
      try congruence.
    unfold configuration_error. now rewrite Hsp.
Qed.

(** [getAccessToken] raises nothing but [AuthenticationError]. *)
Lemma getAccessToken_throws_auth
    (E : Env) (idp : IdentityProvider) (w w' : World) (t : Thrown) :
  getAccessToken E idp w = (Threw t, w') ->
  exists msg, t = AppThrown (AuthenticationError msg).
Proof.
  intros Hcall.
  destruct (hit_or_miss w) as [(c & Hc & Hv) | Hmiss].
  - now rewrite (getAccessToken_hit E idp w c Hc Hv) in Hcall.
  - pose proof (getAccessToken_miss E idp w Hmiss) as Hout.
    rewrite Hcall in Hout. cbn [fst snd] in Hout.
    inversion Hout; eauto.
Qed.

Ltac run_client :=
  cbv beta iota delta
    [request_interceptor dispatchRequest sleep bind ret throw try_catch emit logger
     resume_at Date_now] in *;
  cbn [clock tokenCache trace fst snd] in *.

(** The fuel handed out by [client_request] is never used up. *)
Lemma client_enough_fuel
    (E : Env) (idp : IdentityProvider) (net : Transport) (fuel : nat) :
  forall (config : AxiosRequestConfig) (w : World),
    (0 < fuel)%nat ->
    MAX_RETRIES - default 0 (_retry config) < Z.of_nat fuel ->
    fst (client E idp net fuel config w) <> Threw OutOfFuel.
Proof.
  induction fuel as [| fuel IH]; intros config w Hpos Hfuel; [lia |].
  cbn [client]. run_client.
  destruct (getAccessToken E idp w) as [[token | t] w1] eqn:Htoken.
  - cbn [clock trace tokenCache].
    destruct (outcome (net (clock w1) (trace w1)
                (with_Authorization config ("Bearer " ++ token)))) as [a | reason].
    + destruct (is_2xx (status a)); [discriminate |].
      cbn [clock trace tokenCache].
      destruct (Z.eqb (status a) 429 || Z.leb 500 (status a)); [| discriminate].
      cbn [with_Authorization _retry].
      destruct (Z.ltb_spec (default 0 (_retry config)) MAX_RETRIES) as [Hlt | Hge];
        [| discriminate].
      cbn [clock trace tokenCache].
      apply IH; cbn [with_retry _retry default from_option id]; unfold MAX_RETRIES in *; lia.
    + discriminate.
  - destruct (getAccessToken_throws_auth E idp w w1 t Htoken) as (m & ->).
    discriminate.
Qed.

Lemma client_request_total
    (E : Env) (idp : IdentityProvider) (net : Transport)
    (config : AxiosRequestConfig) (w : World) :
  fst (client_request E idp net config w) <> Threw OutOfFuel.
Proof.
  unfold client_request. apply client_enough_fuel; lia.
Qed.

(** What a call of [getAccessToken] adds to the trace. *)
Lemma getAccessToken_appends (E : Env) (idp : IdentityProvider) (w : World) :
  exists evs,
    trace (snd (getAccessToken E idp w)) = (trace w ++ evs)%list /\
    Forall (token_event E) evs.
Proof.
  destruct (hit_or_miss w) as [(c & Hc & Hv) | Hmiss].
  - rewrite (getAccessToken_hit E idp w c Hc Hv). cbn [snd extend trace].
    eexists. split; [reflexivity |]. repeat constructor.
  - red in Hmiss. run. rewrite Hmiss.
    destruct (String.eqb_spec (PBI_AUTH_MODE E) "sp") as [Hsp | Hsp].
    + destruct (String.eqb (CLIENT_SECRET E) ""); cbn.
      * eexists. split; [reflexivity |]. repeat constructor.
      * match goal with
        | |- context [settled ?r] => destruct (settled r) as [[r' |] | reason]
        end; cbn;
          [ destruct (String.eqb (result_accessToken r') ""); cbn | | ];
          rewrite <- ?app_assoc; (eexists; split; [reflexivity |]); repeat constructor.
    + destruct (String.eqb_spec (PBI_AUTH_MODE E) "device") as [Hdev | Hdev]; cbn.
      * match goal with
        | |- context [byDeviceCode ?i ?t ?h ?c ?s] =>
            destruct (byDeviceCode i t h c s) as [[response |] reply]
        end; cbn;
          (destruct (settled reply) as [[r' |] | reason]; cbn;
           [ destruct (String.eqb (result_accessToken r') ""); cbn | | ]);
          rewrite <- ?app_assoc; (eexists; split; [reflexivity |]);
          repeat constructor; exact Hdev.
      * eexists. split; [reflexivity |]. repeat constructor.
Qed.

Lemma completion_from_app (t u : list Event) :
  forall last, completion_from last (t ++ u) = completion_from (completion_from last t) u.
Proof.
  induction t as [| e t IH]; intros last; [reflexivity |].
  destruct e; cbn [completion_from app]; apply IH.
Qed.

Lemma token_events_completion (E : Env) (evs : list Event) :
  Forall (token_event E) evs ->
  forall last, completion_from last evs = last.
Proof.
  induction 1 as [| e evs He _ IH]; intros last; [reflexivity |].
  destruct e; cbn in He; try contradiction; cbn [completion_from]; apply IH.
Qed.

Lemma token_events_from_transport (E : Env) (net : Transport) (evs : list Event) :
  Forall (token_event E) evs -> Forall (from_transport net) evs.
Proof.
  induction 1 as [| e evs He _ IH]; constructor; [| exact IH].
  destruct e; cbn in He; try contradiction; exact I.
Qed.

Lemma completion_from_answer (net : Transport) (evs : list Event) :
  Forall (from_transport net) evs ->
  forall last o,
    completion_from last evs = Some o ->
    last = Some o \/ exists now history config, o = outcome (net now history config).
Proof.
  induction 1 as [| e evs He _ IH]; intros last o Hdone; [now left |].
  destruct e; cbn [completion_from] in Hdone;
    try (now apply IH in Hdone).
  - apply IH in Hdone as [[= <-] | Hdone]; [| now right].
    destruct He as (now & history & ->). right. now exists now, history, config.
  - apply IH in Hdone as [Hdone | Hdone]; [discriminate | now right].
Qed.

Lemma events_since_app (w w' : World) (evs : list Event) :
  trace w' = (trace w ++ evs)%list -> events_since w w' = evs.
Proof.
  intros Ht. unfold events_since. rewrite Ht.
  rewrite skipn_app, skipn_all, Nat.sub_diag. reflexivity.
Qed.

(** One call of the client: every exchange it records is an answer of
    the transport, and what it hands back is read off the exchange it
    completed with. *)
Lemma client_completion
    (E : Env) (idp : IdentityProvider) (net : Transport) (fuel : nat) :
  forall (config : AxiosRequestConfig) (w : World),
    exists evs,
      trace (snd (client E idp net fuel config w)) = (trace w ++ evs)%list /\
      Forall (from_transport net) evs /\
      outcome_matches (fst (client E idp net fuel config w)) (completion evs).
Proof.
  induction fuel as [| fuel IH]; intros config w.
  - exists []. cbn. rewrite app_nil_r. repeat split; constructor.
  - cbn [client]. run_client.
    destruct (getAccessToken_appends E idp w) as (tok & Htok & Hall).
    pose proof (token_events_from_transport E net tok Hall) as Hquiet.
    pose proof (token_events_completion E tok Hall) as Hsilent.
    destruct (getAccessToken E idp w) as [[token | t] w1] eqn:Htoken; cbn [snd] in Htok.
    + cbn [clock trace tokenCache].
      destruct (outcome (net (clock w1) (trace w1)
                  (with_Authorization config ("Bearer " ++ token)))) as [a | reason] eqn:Hanswer.
      * assert (Hcall : from_transport net
                  (HttpCall (with_Authorization config ("Bearer " ++ token)) (Answered a))).
        { exists (clock w1), (trace w1). now rewrite Hanswer. }
        destruct (is_2xx (status a)) eqn:H2xx.
        -- cbn [fst snd trace]. eexists. rewrite Htok, <- app_assoc.
           split; [reflexivity |]. split.
           ++ apply Forall_app. split; [exact Hquiet | now constructor].
           ++ unfold completion. rewrite completion_from_app, Hsilent. cbn. now split.
        -- cbn [clock trace tokenCache].
           destruct (Z.eqb (status a) 429 || Z.leb 500 (status a)).
           ++ destruct (Z.ltb (default 0 (_retry (with_Authorization config
                                                   ("Bearer " ++ token)))) MAX_RETRIES).
              ** cbn [clock trace tokenCache].
                 match goal with
                 | |- context [client E idp net fuel ?c ?w2] =>
                     destruct (IH c w2) as (evs' & Ht' & Hfrom' & Hdone');
                     cbn [trace] in Ht';
                     destruct (client E idp net fuel c w2) as [c2 w2']
                 end.
                 cbn [fst snd] in *.
                 eexists. rewrite Ht', Htok, <- !app_assoc.
                 split; [reflexivity |]. split.
                 --- apply Forall_app. split; [exact Hquiet |].
                     repeat (constructor; [first [exact Hcall | exact I] |]). exact Hfrom'.
                 --- unfold completion. rewrite completion_from_app, Hsilent.
                     cbn [completion_from app]. exact Hdone'.
              ** cbn [fst snd trace]. eexists. rewrite Htok, <- !app_assoc.
                 split; [reflexivity |]. split.
                 --- apply Forall_app. split; [exact Hquiet |].
                     repeat (constructor; [first [exact Hcall | exact I] |]). constructor.
                 --- unfold completion. rewrite completion_from_app, Hsilent. cbn.
                     now repeat split.
           ++ cbn [fst snd trace]. eexists. rewrite Htok, <- !app_assoc.
              split; [reflexivity |]. split.
              ** apply Forall_app. split; [exact Hquiet |].
                 repeat (constructor; [first [exact Hcall | exact I] |]). constructor.
              ** unfold completion. rewrite completion_from_app, Hsilent. cbn.
                 now repeat split.
      * cbn [fst snd trace]. eexists. rewrite Htok, <- !app_assoc.
        split; [reflexivity |]. split.
        -- apply Forall_app. split; [exact Hquiet |].
           constructor; [| repeat constructor].
           exists (clock w1), (trace w1). now rewrite Hanswer.
        -- unfold completion. rewrite completion_from_app, Hsilent. cbn. reflexivity.
    + destruct (getAccessToken_throws_auth E idp w w1 t Htoken) as (m & ->).
      cbn [fst snd trace]. eexists. rewrite Htok, <- !app_assoc.
      split; [reflexivity |]. split.
      * apply Forall_app. split; [exact Hquiet | repeat constructor].
      * unfold completion. rewrite completion_from_app, Hsilent. cbn. split; [reflexivity |].
        now exists m.
Qed.

(** [request], read off the exchange its axios call completed
    with. *)
Lemma request_completion
    (E : Env) (idp : IdentityProvider) (net : Transport)
    (config : AxiosRequestConfig) (w : World) :
  exists evs,
    trace (snd (request E idp net config w)) = (trace w ++ evs)%list /\
    Forall (from_transport net) evs /\
    match completion evs with
    | Some (Answered r) =>
        fst (request E idp net config w) =
          if is_2xx (status r) then Returned (response_data r)
          else Threw (AppThrown (PowerBIError
                 (js_or (opt_get (opt_get (response_data r) "error") "message")
                        (JStr ("Request failed with status code " ++ pretty (status r))))
                 (Some (status r)) (response_data r)))
    | Some (NoResponse reason) =>
        exists cfg, fst (request E idp net config w) = Threw (AxiosThrown reason cfg None)
    | None =>
        exists m, fst (request E idp net config w) = Threw (AppThrown (AuthenticationError m))
    end.
Proof.
  destruct (client_completion E idp net
              (S (Z.to_nat (MAX_RETRIES - default 0 (_retry config)))) config w)
    as (evs & Ht & Hfrom & Hdone).
  fold (client_request E idp net config w) in Ht, Hdone.
  pose proof (client_request_total E idp net config w) as Htotal.
  exists evs. unfold request, try_catch, bind, ret, throw.
  destruct (client_request E idp net config w) as [[a | t] w'];
    cbn [fst snd] in *.
  - destruct Hdone as (-> & ->). now repeat split.
  - destruct t as [e | msg cfg [r |] | reason |]; cbn [fst snd].
    + destruct Hdone as (-> & m & ->). repeat split; auto. now exists m.
    + destruct Hdone as (-> & -> & ->). now repeat split.
    + rewrite Hdone. repeat split; auto. now exists cfg.
    + contradiction.
    + now contradiction Htotal.
Qed.

(** C9.  A request completes with the last HTTP exchange of its run,
    unless the client slept for a retry after it; that exchange holds
    an answer of the transport.  Whenever a request completes with a
    response [r] outside 2xx, [request] raises a [PowerBIError] whose
    status code is the status of [r] and whose details are the body of
    [r].  Its message is [data?.error?.message || error.message]: the
    error message of the body whenever that is a non-empty string,
    axios' own message otherwise.  So with a transport that never
    answers inside 2xx, a request that gets its token every time it
    asks raises the [PowerBIError] of the response it completed with;
    the only other end is the [AuthenticationError] of a token request
    that failed, after which no exchange was made. *)
Theorem request_raises_PowerBIError
    (E : Env) (idp : IdentityProvider) (net : Transport)
    (config : AxiosRequestConfig) (w : World) :
  let result := fst (request E idp net config w) in
  let done := completion (events_since w (snd (request E idp net config w))) in
  (forall o,
     done = Some o -> exists now history cfg, o = outcome (net now history cfg)) /\
  (forall r,
     done = Some (Answered r) ->
     is_2xx (status r) = false ->
     exists e,
       result = Threw (AppThrown e) /\
       name e = "PowerBIError" /\
       code e = Some "POWERBI_ERROR" /\
       statusCode e = status r /\
       details e = response_data r /\
       message e =
         js_or (opt_get (opt_get (response_data r) "error") "message")
               (JStr ("Request failed with status code " ++ pretty (status r))) /\
       (forall s,
          opt_get (opt_get (response_data r) "error") "message" = JStr s ->
          s <> "" ->
          message e = JStr s)) /\
  (never_2xx net ->
   (done = None /\ exists m, result = Threw (AppThrown (AuthenticationError m))) \/
   (exists r e,
      done = Some (Answered r) /\
      is_2xx (status r) = false /\
      result = Threw (AppThrown e) /\
      name e = "PowerBIError" /\
      statusCode e = status r /\
      details e = response_data r)).
Proof.
  intros result done. subst result done.
  destruct (request_completion E idp net config w) as (evs & Ht & Hfrom & Hres).
  rewrite (events_since_app _ _ _ Ht).
  assert (Hanswer : forall o,
            completion evs = Some o ->
            exists now history cfg, o = outcome (net now history cfg)).
  { intros o Hdone.
    destruct (completion_from_answer net evs Hfrom None o Hdone) as [Hnone | Hnet];
      [discriminate | exact Hnet]. }
  split; [exact Hanswer |]. split.
  - intros r Hdone H2xx. rewrite Hdone, H2xx in Hres.
    eexists. split; [exact Hres |].
    cbn [PowerBIError name code statusCode details message default].
    repeat (split; [reflexivity |]).
    intros s Hs Hne. rewrite Hs. unfold js_or, truthy.
    now rewrite (eqb_empty_false s Hne).
  - intros Hnever.
    destruct (completion evs) as [[r | reason] |] eqn:Hdone.
    + destruct (Hanswer _ eq_refl) as (now & history & cfg & Hr).
      destruct (Hnever now history cfg) as (r' & Hr' & H2xx).
      rewrite Hr' in Hr. injection Hr as ->.
      rewrite H2xx in Hres. right. eexists _, _.
      split; [reflexivity |]. split; [exact H2xx |]. split; [exact Hres |].
      now repeat split.
    + destruct (Hanswer _ eq_refl) as (now & history & cfg & Hr).
      destruct (Hnever now history cfg) as (r' & Hr' & _).
      rewrite Hr' in Hr. discriminate Hr.
    + left. split; [reflexivity | exact Hres].
Qed.

(** ** The properties at the scenarios *)

(** A 404 whose body carries an error message: the message of the
    [PowerBIError] is the one of the body. *)
Example request_not_found :
  fst (request (env process_env_P7) provider_P7 transport_not_found get_report world_warm)
  = Threw (AppThrown
      (PowerBIError (JStr "Report not found") (Some 404) (response_data not_found))).
Proof. vm_compute. reflexivity. Qed.

(** The end-to-end scenario: two calls in immediate succession, one
    provider call, [TOK123] both times. *)
Example two_calls_one_acquisition :
  fst (getAccessToken (env process_env_P7) provider_P7 world_start) = Returned "TOK123" /\
  fst (getAccessToken (env process_env_P7) provider_P7 world_after_first) = Returned "TOK123" /\
  network_calls
    (trace (snd (getAccessToken (env process_env_P7) provider_P7 world_after_first))) = 1%nat.
Proof. vm_compute. repeat split; reflexivity. Qed.

Lemma world_after_first_reachable :
  Reachable (env process_env_P7) provider_P7 world_after_first.
Proof. exact (reach_getAccessToken _ _ _ (reach_start _ _ 1700000000000)). Qed.

Lemma getAccessToken_cache_hit_witness :
  exists w',
    getAccessToken (env process_env_P7) provider_P7 world_warm = (Returned "TOK123", w') /\
    trace w' = [Logged debug "Using cached access token"] /\
    network_calls (trace w') = 0%nat /\
    constructions (trace w') = 0%nat /\
    tokenCache w' = tokenCache world_warm /\
    clock w' = clock world_warm.
Proof.
  apply (getAccessToken_cache_hit (env process_env_P7) provider_P7 world_warm
           {| accessToken := "TOK123"; expiresOn := 1700000000000 + 3600 * 1000 |});
    reflexivity.
Defined.

Lemma getAccessToken_token_or_error_witness :
  Reachable (env process_env_P7) provider_P7 world_after_first /\
  ((exists token,
      fst (getAccessToken (env process_env_P7) provider_P7 world_after_first) = Returned token /\
      token <> "") \/
   (exists msg,
      fst (getAccessToken (env process_env_P7) provider_P7 world_after_first)
        = Threw (AppThrown (AuthenticationError msg)))).
Proof.
  split; [exact world_after_first_reachable |].
  destruct (proj1 (getAccessToken_token_or_error (env process_env_P7) provider_P7
                     world_after_first world_after_first_reachable))
    as [(token & c & Hret & Hne & _) | (msg & Hthrow & _)].
  - left. exists token. split; assumption.
  - right. exists msg. assumption.
Defined.

Lemma fresh_token_replaces_cache_witness :
  getAccessToken (env process_env_P7) provider_P7 world_start
    = (Returned "TOK123", world_after_first) /\
  tokenCache world_after_first =
    Some {| accessToken := "TOK123"; expiresOn := 1700000000000 + 3600 * 1000 |} /\
  network_calls (trace world_after_first) = 1%nat /\
  exists w2,
    getAccessToken (env process_env_P7) provider_P7 world_after_first
      = (Returned "TOK123", w2) /\
    tokenCache w2 = tokenCache world_after_first /\
    network_calls (trace w2) = 1%nat.
Proof.
  destruct (fresh_token_replaces_cache (env process_env_P7) provider_P7 world_start
              {| settled := Fulfilled (Some
                   {| result_accessToken := "TOK123";
                      result_expiresOn := Some (1700000000000 + 3600 * 1000) |});
                 settledAt := 1700000000000 |}
              {| result_accessToken := "TOK123";
                 result_expiresOn := Some (1700000000000 + 3600 * 1000) |}
              eq_refl ltac:(vm_compute; reflexivity) eq_refl
              ltac:(apply String.eqb_neq; reflexivity))
    as (w1 & Hcall & _ & Hslot & Hnet & _ & Htwice).
  assert (Hw1 : w1 = world_after_first).
  { assert (Hfirst : getAccessToken (env process_env_P7) provider_P7 world_start
                     = (Returned "TOK123", world_after_first)) by (vm_compute; reflexivity).
    rewrite Hfirst in Hcall. now injection Hcall as <-. }
  subst w1.
  split; [exact Hcall |]. split; [exact Hslot |]. split; [exact Hnet |].
  exact (Htwice eq_refl).
Defined.

Lemma getAccessToken_missing_secret_witness :
  exists w',
    getAccessToken (env process_env_no_secret) provider_P7 world_start =
      (Threw (AppThrown (AuthenticationError
         "CLIENT_SECRET is required for service principal authentication")), w') /\
    trace w' = [Logged info "Acquiring new access token"] /\
    network_calls (trace w') = 0%nat /\
    constructions (trace w') = 0%nat /\
    tokenCache w' = None.
Proof.
  apply (getAccessToken_missing_secret (env process_env_no_secret) provider_P7 world_start);
    [exact (reach_start _ _ 1700000000000) | vm_compute; reflexivity | vm_compute; reflexivity].
Defined.

Lemma getAccessToken_unknown_strategy_witness :
  exists w',
    getAccessToken (env process_env_bad_mode) provider_P7 world_start =
      (Threw (AppThrown (AuthenticationError "Invalid auth mode: managed-identity")), w') /\
    trace w' = [Logged info "Acquiring new access token"] /\
    network_calls (trace w') = 0%nat /\
    constructions (trace w') = 0%nat /\
    tokenCache w' = None.
Proof.
  apply (getAccessToken_unknown_strategy (env process_env_bad_mode) provider_P7 world_start);
    [exact (reach_start _ _ 1700000000000)
    | apply String.eqb_neq; vm_compute; reflexivity
    | apply String.eqb_neq; vm_compute; reflexivity].
Defined.

Lemma expired_credential_reacquires_witness :
  expiresOn {| accessToken := "OLD"; expiresOn := 1700000000000 + 5 * 60 * 1000 - 1000 |}
    = clock world_at_boundary + 5 * 60 * 1000 - 1000 /\
  acquisition_performed (env process_env_P7) world_at_boundary
    (snd (getAccessToken (env process_env_P7) provider_P7 world_at_boundary)) /\
  fst (getAccessToken (env process_env_P7) provider_P7 world_at_boundary) = Returned "TOK123".
Proof.
  split; [reflexivity |].
  destruct (expired_credential_reacquires (env process_env_P7) provider_P7 world_at_boundary
              {| accessToken := "OLD"; expiresOn := 1700000000000 + 5 * 60 * 1000 - 1000 |}
              eq_refl ltac:(cbn; lia))
    as (Hperformed & _ & Hissued).
  split; [exact Hperformed |].
  apply (Hissued
           {| settled := Fulfilled (Some
                {| result_accessToken := "TOK123";
                   result_expiresOn := Some (1700000000000 + 3600 * 1000) |});
              settledAt := 1700000000000 |}
           {| result_accessToken := "TOK123";
              result_expiresOn := Some (1700000000000 + 3600 * 1000) |});
    [vm_compute; reflexivity | reflexivity | apply String.eqb_neq; reflexivity].
Defined.

Lemma missing_selector_defaults_to_sp_witness :
  process_env_no_mode !! "PBI_AUTH_MODE" = None /\
  PBI_AUTH_MODE (env process_env_no_mode) = "sp" /\
  network_calls
    (trace (snd (getAccessToken (env process_env_no_mode) provider_P7 world_start))) = 1%nat.
Proof.
  split; [vm_compute; reflexivity |].
  destruct (missing_selector_defaults_to_sp process_env_no_mode provider_P7 world_start
              ltac:(vm_compute; reflexivity))
    as (Hsp & _ & Hcalls & _).
  split; [exact Hsp |].
  apply Hcalls; [reflexivity | apply String.eqb_neq; vm_compute; reflexivity].
Defined.

Lemma missing_expiry_defaults_to_one_hour_witness :
  exists w1,
    getAccessToken (env process_env_P7) provider_no_expiry world_start
      = (Returned "TOK123", w1) /\
    clock w1 = 1700000000250 /\
    tokenCache w1 =
      Some {| accessToken := "TOK123"; expiresOn := clock w1 + 3600 * 1000 |} /\
    (forall w2,
       tokenCache w2 = tokenCache w1 ->
       clock w2 < clock w1 + 55 * 60 * 1000 ->
       getAccessToken (env process_env_P7) provider_no_expiry w2 =
         (Returned "TOK123", extend w2 [Logged debug "Using cached access token"])) /\
    (forall w2,
       tokenCache w2 = tokenCache w1 ->
       clock w1 + 55 * 60 * 1000 <= clock w2 ->
       cache_miss w2).
Proof.
  apply (missing_expiry_defaults_to_one_hour (env process_env_P7) provider_no_expiry
           world_start
           {| settled := Fulfilled (Some
                {| result_accessToken := "TOK123"; result_expiresOn := None |});
              settledAt := 1700000000000 + 250 |}
           {| result_accessToken := "TOK123"; result_expiresOn := None |});
    [reflexivity | vm_compute; reflexivity | reflexivity
    | apply String.eqb_neq; reflexivity | reflexivity].
Defined.

Lemma request_raises_PowerBIError_witness :
  completion (events_since world_warm
    (snd (request (env process_env_P7) provider_P7 transport_unavailable get_report
            world_warm))) = Some (Answered unavailable) /\
  exists e,
    fst (request (env process_env_P7) provider_P7 transport_unavailable get_report world_warm)
      = Threw (AppThrown e) /\
    name e = "PowerBIError" /\
    statusCode e = 503 /\
    details e = JStr "Service Unavailable" /\
    message e = JStr "Request failed with status code 503".
Proof.
  assert (Hdone :
    completion (events_since world_warm
      (snd (request (env process_env_P7) provider_P7 transport_unavailable get_report
              world_warm))) = Some (Answered unavailable)) by (vm_compute; reflexivity).
  split; [exact Hdone |].
  destruct (proj1 (proj2 (request_raises_PowerBIError (env process_env_P7) provider_P7
                            transport_unavailable get_report world_warm))
              unavailable Hdone eq_refl)
    as (e & Hreq & Hname & _ & Hstatus & Hdetails & Hmessage & _).
  exists e. repeat split; assumption.
Defined.

(** * Further properties of the token provider and the client *)

Lemma http_calls_app (t u : list Event) :
  http_calls (t ++ u) = (http_calls t + http_calls u)%nat.
Proof. unfold http_calls. now rewrite List.filter_app, List.length_app. Qed.

Lemma sleeps_app (t u : list Event) : sleeps (t ++ u) = (sleeps t ++ sleeps u)%list.
Proof.
  induction t as [| e t IH]; [reflexivity |].
  destruct e; cbn [sleeps app]; now rewrite ?IH.
Qed.

Lemma printed_app (t u : list Event) : printed (t ++ u) = (printed t ++ printed u)%list.
Proof.
  induction t as [| e t IH]; [reflexivity |].
  destruct e; cbn [printed app]; now rewrite ?IH.
Qed.

Lemma token_events_quiet (E : Env) (evs : list Event) :
  Forall (token_event E) evs ->
  http_calls evs = 0%nat /\ sleeps evs = [] /\
  (PBI_AUTH_MODE E <> "device" -> printed evs = []).
Proof.
  induction 1 as [| e evs He _ (IHh & IHs & IHp)]; [now repeat split |].
  destruct e; cbn in He; try contradiction;
    cbn [http_calls List.filter is_http sleeps printed];
    fold (http_calls evs); repeat split; auto.
  intros Hne. contradiction.
Qed.

Lemma getAccessToken_trace (E : Env) (idp : IdentityProvider) (w w1 : World) (c : Completion string) :
  getAccessToken E idp w = (c, w1) ->
  exists evs,
    trace w1 = (trace w ++ evs)%list /\
    http_calls evs = 0%nat /\ sleeps evs = [] /\
    (PBI_AUTH_MODE E <> "device" -> printed evs = []).
Proof.
  intros Hcall.
  destruct (getAccessToken_appends E idp w) as (evs & Htrace & Hall).
  rewrite Hcall in Htrace. exists evs. split; [exact Htrace |].
  now apply token_events_quiet with (E := E).
Qed.

(** The retries of one call of the client: [n] sleeps following the
    schedule, and between [n] and [n + 1] exchanges. *)
Lemma client_schedule
    (E : Env) (idp : IdentityProvider) (net : Transport) (fuel : nat) :
  forall (config : AxiosRequestConfig) (w : World),
    0 <= default 0 (_retry config) ->
    (0 < fuel)%nat ->
    MAX_RETRIES - default 0 (_retry config) < Z.of_nat fuel ->
    exists evs n,
      trace (snd (client E idp net fuel config w)) = (trace w ++ evs)%list /\
      Z.of_nat n <= Z.max 0 (MAX_RETRIES - default 0 (_retry config)) /\
      sleeps evs = schedule (default 0 (_retry config)) n /\
      (n <= http_calls evs <= S n)%nat.
Proof.
  induction fuel as [| fuel IH]; intros config w Hk Hpos Hfuel; [lia |].
  cbn [client]. run_client.
  destruct (getAccessToken E idp w) as [[token | t] w1] eqn:Htoken.
  - destruct (getAccessToken_trace E idp w w1 _ Htoken) as (evs0 & Ht0 & Hh0 & Hs0 & _).
    cbn [clock trace tokenCache].
    destruct (outcome (net (clock w1) (trace w1)
                (with_Authorization config ("Bearer " ++ token)))) as [a | reason].
    + destruct (is_2xx (status a)).
      * cbn [snd trace]. exists (evs0 ++ [HttpCall (with_Authorization config ("Bearer " ++ token)) (Answered a)])%list, 0%nat.
        rewrite Ht0, <- app_assoc, sleeps_app, http_calls_app, Hs0, Hh0.
        cbn. repeat split; lia.
      * cbn [clock trace tokenCache].
        destruct (Z.eqb (status a) 429 || Z.leb 500 (status a)).
        -- cbn [with_Authorization _retry].
           destruct (Z.ltb_spec (default 0 (_retry config)) MAX_RETRIES) as [Hlt | Hge].
           ++ cbn [clock trace tokenCache].
              match goal with
              | |- context [client E idp net fuel ?c ?w2] =>
                  destruct (IH c w2) as (evs' & n' & Ht' & Hn' & Hs' & Hh')
              end.
              { cbn [with_retry _retry default from_option id]. lia. }
              { unfold MAX_RETRIES in *. lia. }
              { cbn [with_retry _retry default from_option id]. unfold MAX_RETRIES in *. lia. }
              cbn [with_retry _retry default from_option id trace] in *.
              eexists _, (S n'). rewrite Ht', Ht0. rewrite <- !app_assoc.
              split; [reflexivity |].
              rewrite !sleeps_app, !http_calls_app, Hs0, Hh0.
              cbn [sleeps http_calls List.filter is_http app length schedule].
              fold (http_calls evs'). rewrite Hs'.
              unfold MAX_RETRIES in *. repeat split; try lia.
           ++ cbn [snd trace]. eexists _, 0%nat. rewrite Ht0, <- !app_assoc.
              split; [reflexivity |].
              rewrite !sleeps_app, !http_calls_app, Hs0, Hh0. cbn. repeat split; lia.
        -- cbn [snd trace]. eexists _, 0%nat. rewrite Ht0, <- !app_assoc.
           split; [reflexivity |].
           rewrite !sleeps_app, !http_calls_app, Hs0, Hh0. cbn. repeat split; lia.
    + cbn [snd trace]. eexists _, 0%nat. rewrite Ht0, <- !app_assoc.
      split; [reflexivity |].
      rewrite !sleeps_app, !http_calls_app, Hs0, Hh0. cbn. repeat split; lia.
  - destruct (getAccessToken_trace E idp w w1 _ Htoken) as (evs0 & Ht0 & Hh0 & Hs0 & _).
    destruct (getAccessToken_throws_auth E idp w w1 t Htoken) as (m & ->).
    cbn [snd trace]. eexists _, 0%nat. rewrite Ht0, <- !app_assoc.
    split; [reflexivity |].
    rewrite !sleeps_app, !http_calls_app, Hs0, Hh0. cbn. repeat split; lia.
Qed.

Lemma schedule_from_zero (n : nat) :
  (n <= 3)%nat -> schedule 0 n = firstn n [1000; 2000; 4000].
Proof.
  intros Hn. destruct n as [| [| [| [| n]]]]; try reflexivity. lia.
Qed.

(** [request] leaves the world its axios call leaves, and runs out of
    fuel only if that call does. *)
Lemma request_world
    (E : Env) (idp : IdentityProvider) (net : Transport)
    (config : AxiosRequestConfig) (w : World) :
  snd (request E idp net config w) = snd (client_request E idp net config w) /\
  (fst (request E idp net config w) = Threw OutOfFuel ->
   fst (client_request E idp net config w) = Threw OutOfFuel).
Proof.
  unfold request, try_catch, bind, ret, throw.
  destruct (client_request E idp net config w) as [[a | t] w'].
  - split; [reflexivity | discriminate].
  - destruct t as [e | msg cfg [r |] | reason |]; split; try reflexivity; discriminate.
Qed.

(** X1.  A request of the API client retries at most three times. What
    it adds to the trace holds [n <= 3] sleeps, which are the first
    [n] of 1000, 2000 and 4000 milliseconds, and between [n] and
    [n + 1] HTTP exchanges, so never more than four; the call always
    completes. *)
Theorem request_bounded_backoff
    (E : Env) (idp : IdentityProvider) (net : Transport)
    (config : AxiosRequestConfig) (w : World) :
  _retry config = None ->
  exists evs n,
    trace (snd (request E idp net config w)) = (trace w ++ evs)%list /\
    (n <= 3)%nat /\
    sleeps evs = firstn n [1000; 2000; 4000] /\
    (n <= http_calls evs <= S n)%nat /\
    fst (request E idp net config w) <> Threw OutOfFuel.
Proof.
  intros Hfresh.
  destruct (request_world E idp net config w) as (Hworld & Hfuel).
  rewrite Hworld. unfold client_request in *. rewrite Hfresh in *.
  cbn [default from_option id] in *.
  destruct (client_schedule E idp net (S (Z.to_nat (MAX_RETRIES - 0))) config w)
    as (evs & n & Ht & Hn & Hs & Hh); rewrite ?Hfresh; cbn [default from_option id];
    try (unfold MAX_RETRIES; lia).
  rewrite Hfresh in Hn, Hs. cbn [default from_option id] in Hn, Hs.
  unfold MAX_RETRIES in Hn.
  exists evs, n. split; [exact Ht |]. split; [lia |].
  split; [rewrite Hs; apply schedule_from_zero; lia |]. split; [exact Hh |].
  intros Hout. apply Hfuel in Hout. revert Hout.
  apply client_enough_fuel; rewrite ?Hfresh; cbn [default from_option id];
    unfold MAX_RETRIES; lia.
Qed.





Lemma token_event_authorized (E : Env) (evs : list Event) :
  Forall (token_event E) evs -> Forall authorized evs.
Proof.
  induction 1 as [| e evs He _ IH]; constructor; [| exact IH].
  destruct e; cbn in *; auto. contradiction.
Qed.

(** A token handed out in a reachable world is not empty. *)
Lemma getAccessToken_token_nonempty
    (E : Env) (idp : IdentityProvider) (w w1 : World) (token : string) :
  Reachable E idp w ->
  getAccessToken E idp w = (Returned token, w1) ->
  token <> "".
Proof.
  intros Hw Hcall.
  destruct (hit_or_miss w) as [(c & Hc & Hv) | Hmiss].
  - rewrite (getAccessToken_hit E idp w c Hc Hv) in Hcall. injection Hcall as <- _.
    now apply (reachable_token_nonempty E idp w Hw).
  - destruct (getAccessToken_returned E idp w w1 token Hmiss Hcall) as (exp & Hslot & _).
    assert (Hw1 : Reachable E idp w1).
    { replace w1 with (snd (getAccessToken E idp w)) by now rewrite Hcall.
      now apply reach_getAccessToken. }
    exact (reachable_token_nonempty E idp w1 Hw1 _ Hslot).
Qed.

Lemma reachable_after
    (E : Env) (idp : IdentityProvider) (w : World) (t : Z) (tr : list Event) (evs : list Event) :
  Reachable E idp w ->
  tr = (trace w ++ evs)%list ->
  Reachable E idp {| clock := t; tokenCache := tokenCache w; trace := tr |}.
Proof. intros Hw ->. now apply reach_elsewhere. Qed.

Lemma client_authorized
    (E : Env) (idp : IdentityProvider) (net : Transport) (fuel : nat) :
  forall (config : AxiosRequestConfig) (w : World),
    Reachable E idp w ->
    exists evs,
      trace (snd (client E idp net fuel config w)) = (trace w ++ evs)%list /\
      Forall authorized evs.
Proof.
  induction fuel as [| fuel IH]; intros config w Hw.
  - exists []. cbn. split; [now rewrite app_nil_r | constructor].
  - cbn [client]. run_client.
    destruct (getAccessToken_appends E idp w) as (evs0 & Ht0 & Hall0).
    apply token_event_authorized in Hall0.
    pose proof (reach_getAccessToken E idp w Hw) as Hw1.
    destruct (getAccessToken E idp w) as [[token | t] w1] eqn:Htoken; cbn [snd] in *.
    + pose proof (getAccessToken_token_nonempty E idp w w1 token Hw Htoken) as Hne.
      assert (Hcall : authorized
                (HttpCall (with_Authorization config ("Bearer " ++ token))
                   (outcome (net (clock w1) (trace w1)
                      (with_Authorization config ("Bearer " ++ token)))))).
      { cbn. exists token. now split. }
      cbn [clock trace tokenCache].
      destruct (outcome (net (clock w1) (trace w1)
                  (with_Authorization config ("Bearer " ++ token)))) as [a | reason].
      * destruct (is_2xx (status a)).
        -- cbn [snd trace]. eexists. rewrite Ht0, <- app_assoc. split; [reflexivity |].
           apply Forall_app. split; [exact Hall0 |]. now repeat constructor.
        -- cbn [clock trace tokenCache].
           destruct (Z.eqb (status a) 429 || Z.leb 500 (status a)).
           ++ destruct (Z.ltb (default 0 (_retry (with_Authorization config
                                                     ("Bearer " ++ token)))) MAX_RETRIES).
              ** cbn [clock trace tokenCache].
                 match goal with
                 | |- context [client E idp net fuel ?c ?w2] =>
                     destruct (IH c w2) as (evs' & Ht' & Hall')
                 end.
                 { eapply reachable_after; [exact Hw1 |].
                   rewrite <- !app_assoc. reflexivity. }
                 rewrite Ht'. cbn [trace]. rewrite Ht0, <- !app_assoc.
                 eexists. split; [reflexivity |].
                 apply Forall_app. split; [exact Hall0 |].
                 cbn [app]. now repeat constructor.
              ** cbn [snd trace]. eexists. rewrite Ht0, <- !app_assoc.
                 split; [reflexivity |].
                 apply Forall_app. split; [exact Hall0 |]. now repeat constructor.
           ++ cbn [snd trace]. eexists. rewrite Ht0, <- !app_assoc.
              split; [reflexivity |].
              apply Forall_app. split; [exact Hall0 |]. now repeat constructor.
      * cbn [snd trace]. eexists. rewrite Ht0, <- !app_assoc.
        split; [reflexivity |].
        apply Forall_app. split; [exact Hall0 |]. now repeat constructor.
    + destruct (getAccessToken_throws_auth E idp w w1 t Htoken) as (m & ->).
      cbn [snd trace]. eexists. rewrite Ht0, <- !app_assoc.
      split; [reflexivity |].
      apply Forall_app. split; [exact Hall0 |]. now repeat constructor.
Qed.

(** X3.  From a world the process can be in, every HTTP exchange a
    request makes with the Power BI API, retries included, goes out
    with an [Authorization] header of the form [Bearer <token>] whose
    token is not empty. *)
Theorem request_always_authorized
    (E : Env) (idp : IdentityProvider) (net : Transport)
    (config : AxiosRequestConfig) (w : World) :
  Reachable E idp w ->
  exists evs,
    trace (snd (request E idp net config w)) = (trace w ++ evs)%list /\
    Forall authorized evs.
Proof.
  intros Hw.
  destruct (request_world E idp net config w) as (-> & _).
  now apply client_authorized.
Qed.

(** X4.  When the token provider fails, the request fails with the
    very error of [getAccessToken], an [AuthenticationError], not a
    [PowerBIError]: the interceptor logs it and nothing is sent to the
    Power BI API, nothing is retried. *)
Theorem request_stops_on_token_failure
    (E : Env) (idp : IdentityProvider) (net : Transport)
    (config : AxiosRequestConfig) (w w1 : World) (t : Thrown) :
  getAccessToken E idp w = (Threw t, w1) ->
  request E idp net config w = (Threw t, extend w1 [Logged error "Power BI API error"]) /\
  (exists m, t = AppThrown (AuthenticationError m)) /\
  http_calls (trace (snd (request E idp net config w))) = http_calls (trace w) /\
  sleeps (trace (snd (request E idp net config w))) = sleeps (trace w).
Proof.
  intros Htoken.
  destruct (getAccessToken_throws_auth E idp w w1 t Htoken) as (m & ->).
  destruct (getAccessToken_trace E idp w w1 _ Htoken) as (evs0 & Ht0 & Hh0 & Hs0 & _).
  assert (Hreq : request E idp net config w =
                 (Threw (AppThrown (AuthenticationError m)),
                  extend w1 [Logged error "Power BI API error"])).
  { unfold request, client_request. cbn [client]. run_client. rewrite Htoken. reflexivity. }
  rewrite Hreq. cbn [snd extend trace].
  split; [reflexivity |]. split; [exists m; reflexivity |].
  rewrite Ht0, !http_calls_app, !sleeps_app, Hh0, Hs0. cbn.
  split; [lia | now rewrite !app_nil_r].
Qed.

(** X5.  A first answer that the client does not retry ends the
    request after that one exchange, without any sleep: a 2xx answer
    returns the body of the response, a status that is neither 2xx,
    429 nor 5xx raises the [PowerBIError] of that response, and an
    exchange without any response (timeout, refused connection) raises
    the error of axios as it is. *)
Theorem request_single_exchange
    (E : Env) (idp : IdentityProvider) (net : Transport)
    (config : AxiosRequestConfig) (w w1 : World) (token : string) (o : HttpOutcome) :
  getAccessToken E idp w = (Returned token, w1) ->
  outcome (net (clock w1) (trace w1) (with_Authorization config ("Bearer " ++ token))) = o ->
  match o with
  | Answered r => status r <> 429 /\ status r < 500
  | NoResponse _ => True
  end ->
  exists evs,
    trace (snd (request E idp net config w)) = (trace w1 ++ evs)%list /\
    http_calls evs = 1%nat /\
    sleeps evs = [] /\
    fst (request E idp net config w) =
      match o with
      | Answered r =>
          if is_2xx (status r) then Returned (response_data r)
          else Threw (AppThrown (PowerBIError
                 (js_or (opt_get (opt_get (response_data r) "error") "message")
                        (JStr ("Request failed with status code " ++ pretty (status r))))
                 (Some (status r)) (response_data r)))
      | NoResponse reason =>
          Threw (AxiosThrown reason (with_Authorization config ("Bearer " ++ token)) None)
      end.
Proof.
  intros Htoken Ho Hfinal.
  unfold request, client_request. cbn [client]. run_client.
  rewrite Htoken. cbn [clock trace tokenCache]. rewrite Ho.
  destruct o as [r | reason].
  - destruct Hfinal as (H429 & H500).
    destruct (is_2xx (status r)).
    + cbn. eexists. split; [reflexivity |]. now repeat split.
    + cbn [clock trace tokenCache].
      apply Z.eqb_neq in H429 as ->. apply Z.leb_gt in H500 as ->.
      cbn. eexists. rewrite <- app_assoc. split; [reflexivity |]. now repeat split.
  - cbn. eexists. rewrite <- app_assoc. split; [reflexivity |]. now repeat split.
Qed.

(** X6.  Under the device-code strategy, once the provider hands out
    a verification URL and a user code, they are shown to the operator
    on the console (and logged) whatever the flow ends with: approval,
    a result without token, or a rejection. *)
Theorem device_code_prompt_displayed
    (E : Env) (idp : IdentityProvider) (w : World)
    (response : DeviceCodeResponse) (reply : TokenReply) :
  cache_miss w ->
  PBI_AUTH_MODE E = "device" ->
  byDeviceCode idp (clock w) (trace_at_call E DeviceCode (trace w))
    (msalConfig_of E DeviceCode) [PBI_SCOPE E] = (Some response, reply) ->
  exists evs,
    trace (snd (getAccessToken E idp w)) = (trace w ++ evs)%list /\
    printed evs =
      [newline ++ repeat_string "=" 60;
       "      DEVICE CODE AUTHENTICATION";
       repeat_string "=" 60;
       "1. Visit: " ++ verificationUri response;
       "2. Enter Code: " ++ userCode response;
       repeat_string "=" 60 ++ newline] /\
    In (Logged info ("Open: " ++ verificationUri response)) evs /\
    In (Logged info ("Enter Code: " ++ userCode response)) evs.
Proof.
  intros Hmiss Hdev Hprompt. red in Hmiss.
  unfold trace_at_call, msalConfig_of in Hprompt.
  run. rewrite Hmiss, Hdev. cbn [String.eqb Ascii.eqb Bool.eqb]. cbn.
  rewrite <- !app_assoc. cbn [app]. rewrite Hprompt. cbn.
  destruct (settled reply) as [[r' |] | reason]; cbn;
    [ destruct (String.eqb (result_accessToken r') ""); cbn | | ];
    rewrite <- ?app_assoc; (eexists; split; [reflexivity |]);
    (split; [reflexivity |]); cbn; tauto.
Qed.

(** X7.  What one call of [getAccessToken] does to the outside: it
    only appends to the trace; it calls the identity provider at most
    once (no retry of its own), never talks to the Power BI API and
    never sleeps; it writes to the console under the device-code
    strategy only. *)
Theorem getAccessToken_footprint (E : Env) (idp : IdentityProvider) (w : World) :
  exists evs,
    trace (snd (getAccessToken E idp w)) = (trace w ++ evs)%list /\
    (network_calls evs <= 1)%nat /\
    http_calls evs = 0%nat /\
    sleeps evs = [] /\
    (PBI_AUTH_MODE E <> "device" -> printed evs = []).
Proof.
  destruct (getAccessToken_appends E idp w) as (evs & Htrace & Hall).
  destruct (token_events_quiet E evs Hall) as (Hh & Hs & Hp).
  exists evs. repeat split; auto.
  destruct (hit_or_miss w) as [(c & Hc & Hv) | Hmiss].
  - rewrite (getAccessToken_hit E idp w c Hc Hv) in Htrace. cbn [snd extend trace] in Htrace.
    apply app_inv_head in Htrace. subst evs. cbn. lia.
  - destruct (getAccessToken_miss E idp w Hmiss)
      as [Hnone | reply reason evs1 Hreply Hs1 Hn
          | reply r evs1 Hreply Hs1 Hr Hn | reply r evs1 Hreply Hs1 Hne Hn];
      cbn [trace extend] in Htrace; apply app_inv_head in Htrace; subst evs;
      change (network_calls (Logged info "Acquiring new access token" :: ?l))
        with (network_calls l); cbn; lia.
Qed.

(** X8.  The message of a failure of [getAccessToken] is one of three
    fixed texts that depend on the configuration only (the
    configuration error, the rejection text of the strategy, the text
    for a result without token): what the provider gave as the reason
    of a rejection is logged at most, never passed on.  The error is
    an [AuthenticationError] with status code 401 and code
    [AUTH_ERROR]. *)
Theorem getAccessToken_failure_messages
    (E : Env) (idp : IdentityProvider) (w w' : World) (t : Thrown) :
  getAccessToken E idp w = (Threw t, w') ->
  exists e m,
    t = AppThrown e /\
    e = AuthenticationError m /\
    In m [configuration_error E; rejection_error E; "Failed to acquire access token"] /\
    statusCode e = 401 /\
    code e = Some "AUTH_ERROR".
Proof.
  intros Hcall.
  destruct (hit_or_miss w) as [(c & Hc & Hv) | Hmiss].
  - now rewrite (getAccessToken_hit E idp w c Hc Hv) in Hcall.
  - pose proof (getAccessToken_miss E idp w Hmiss) as Hout.
    rewrite Hcall in Hout. cbn [fst snd] in Hout.
    inversion Hout; subst; eexists _, _;
      (split; [reflexivity |]); (split; [reflexivity |]); cbn; tauto.
Qed.

(** X9.  The device-code strategy does not read the client secret:
    with the selector ['device'], [getAccessToken] behaves the same
    whatever the secret is, set or not. *)
Theorem device_code_ignores_secret
    (E : Env) (idp : IdentityProvider) (w : World) (secret : string) :
  PBI_AUTH_MODE E = "device" ->
  getAccessToken (with_secret E secret) idp w = getAccessToken E idp w.
Proof.
  intros Hdev. unfold getAccessToken, acquireTokenDeviceCode.
  cbn [with_secret PBI_AUTH_MODE CLIENT_ID TENANT_ID PBI_SCOPE].
  rewrite Hdev. reflexivity.
Qed.

Lemma strategy_ready_dec (E : Env) : strategy_ready E \/ ~ strategy_ready E.
Proof.
  unfold strategy_ready.
  destruct (String.eqb_spec (PBI_AUTH_MODE E) "device") as [Hdev | Hdev]; [now left; right |].
  destruct (String.eqb_spec (PBI_AUTH_MODE E) "sp") as [Hsp | Hsp].
  - destruct (String.eqb_spec (CLIENT_SECRET E) "") as [Hsec | Hsec].
    + right. intros [[_ Hne] | Heq]; contradiction.
    + left. now left.
  - right. intros [[Heq _] | Heq]; contradiction.
Qed.

Lemma getAccessToken_network_monotone (E : Env) (idp : IdentityProvider) (w : World) :
  (network_calls (trace w) <= network_calls (trace (snd (getAccessToken E idp w))))%nat.
Proof.
  destruct (getAccessToken_appends E idp w) as (evs & -> & _).
  rewrite network_calls_app. lia.
Qed.

(** X10.  An invariant of the credential slot: in every world the
    process can be in, a credential in the slot has a non-empty token,
    the configured strategy is one of the two and has what it needs,
    and the identity provider has been called at least once. *)
Theorem credential_slot_invariant
    (E : Env) (idp : IdentityProvider) (w : World) (c : TokenCache) :
  Reachable E idp w ->
  tokenCache w = Some c ->
  accessToken c <> "" /\
  strategy_ready E /\
  (1 <= network_calls (trace w))%nat.
Proof.
  intros Hw Hc. split; [now apply (reachable_token_nonempty E idp w Hw) |]. split.
  - destruct (strategy_ready_dec E) as [Hready | Hnot]; [exact Hready |].
    rewrite (reachable_not_ready_empty E idp w Hnot Hw) in Hc. discriminate.
  - revert c Hc.
    induction Hw as [t0 | w Hw IH | w Hw IH | w t evs Hw IH]; cbn [tokenCache trace];
      intros c Hc; try discriminate.
    + destruct (hit_or_miss w) as [(c0 & Hc0 & Hv) | Hmiss].
      * pose proof (getAccessToken_network_monotone E idp w).
        specialize (IH c0 Hc0). lia.
      * pose proof (miss_performs E idp w Hmiss) as (_ & Hperf).
        destruct (strategy_ready_dec E) as [Hready | Hnot]; [specialize (Hperf Hready); lia |].
        assert (Hw' : Reachable E idp (snd (getAccessToken E idp w)))
          by now apply reach_getAccessToken.
        rewrite (reachable_not_ready_empty E idp _ Hnot Hw') in Hc. discriminate.
    + rewrite network_calls_app. specialize (IH c Hc). lia.
Qed.

(** * Start-up *)

Lemma env_or_set (process_env : gmap string string) (k d : string) :
  env_or process_env k d <> d ->
  exists v, process_env !! k = Some v /\ v <> "" /\ env_or process_env k d = v.
Proof.
  unfold env_or. destruct (process_env !! k) as [v |]; [| congruence].
  destruct (String.eqb_spec v ""); [congruence |]. intros _. now exists v.
Qed.

Lemma env_or_empty_default (process_env : gmap string string) (k : string) :
  env_or process_env k "" <> "" <->
  exists v, process_env !! k = Some v /\ v <> "".
Proof.
  split.
  - intros Hne. destruct (env_or_set process_env k "" Hne) as (v & Hv & Hn & _). eauto.
  - intros (v & Hv & Hn). unfold env_or. rewrite Hv.
    now rewrite (eqb_empty_false v Hn).
Qed.

Lemma env_or_default_nonempty (process_env : gmap string string) (k d : string) :
  d <> "" -> env_or process_env k d <> "".
Proof.
  intros Hd. unfold env_or. destruct (process_env !! k) as [v |]; [| exact Hd].
  destruct (String.eqb_spec v ""); [exact Hd | assumption].
Qed.

(** X11.  [validateEnv] accepts the configuration read from
    [process.env] exactly when [CLIENT_ID] and [TENANT_ID] are both set
    to non-empty values; it does not look at the secret or the
    strategy.  A missing [CLIENT_ID] is the error reported, also when
    [TENANT_ID] is missing too. *)
Theorem validateEnv_accepts (process_env : gmap string string) (w : World) :
  (validateEnv (env process_env) w = (Returned tt, w) <->
   (exists v, process_env !! "CLIENT_ID" = Some v /\ v <> "") /\
   (exists v, process_env !! "TENANT_ID" = Some v /\ v <> "")) /\
  (~ (exists v, process_env !! "CLIENT_ID" = Some v /\ v <> "") ->
   validateEnv (env process_env) w = (Threw (OtherThrown "Missing CLIENT_ID"), w)) /\
  ((exists v, process_env !! "CLIENT_ID" = Some v /\ v <> "") ->
   ~ (exists v, process_env !! "TENANT_ID" = Some v /\ v <> "") ->
   validateEnv (env process_env) w = (Threw (OtherThrown "Missing TENANT_ID"), w)).
Proof.
  rewrite <- !env_or_empty_default.
  unfold validateEnv, bind, ret, throw. cbn [env CLIENT_ID TENANT_ID].
  destruct (String.eqb_spec (env_or process_env "CLIENT_ID" "") "") as [Hc | Hc];
    destruct (String.eqb_spec (env_or process_env "TENANT_ID" "") "") as [Ht | Ht];
    repeat split; try tauto; try discriminate; try (intros []; tauto).
Qed.

(** X12.  Whatever [process.env] holds, the port, the strategy
    selector, the CORS origins and the path of pbi-tools of the
    configuration are never empty (an empty variable counts as
    unset), the scope is the fixed Power BI scope, and a variable set
    to a non-empty value is taken as it is. *)
Theorem env_defaults (process_env : gmap string string) :
  PORT (env process_env) <> "" /\
  PBI_AUTH_MODE (env process_env) <> "" /\
  CORS_ORIGINS (env process_env) <> "" /\
  PBI_TOOLS_PATH (env process_env) <> "" /\
  PBI_SCOPE (env process_env) = "https://analysis.windows.net/powerbi/api/.default" /\
  (forall k d v, process_env !! k = Some v -> v <> "" -> env_or process_env k d = v) /\
  (forall k d, process_env !! k = None \/ process_env !! k = Some "" ->
               env_or process_env k d = d).
Proof.
  cbn [env PORT PBI_AUTH_MODE CORS_ORIGINS PBI_TOOLS_PATH PBI_SCOPE].
  repeat split; try (apply env_or_default_nonempty; discriminate).
  - intros k d v Hv Hne. unfold env_or. rewrite Hv. now rewrite (eqb_empty_false v Hne).
  - intros k d [Hk | Hk]; unfold env_or; now rewrite Hk.
Qed.

Lemma prefix_iff (p s : string) :
  String.prefix p s = true <-> exists rest, s = p ++ rest.
Proof.
  revert s. induction p as [| a p IH]; intros s.
  - split; [intros _; now exists s | intros _; now destruct s].
  - destruct s as [| b s].
    + split; [discriminate | intros (rest & Hrest); discriminate Hrest].
    + change (String.prefix (String a p) (String b s))
        with (if Ascii.ascii_dec a b then String.prefix p s else false).
      destruct (Ascii.ascii_dec a b) as [-> | Hab].
      * rewrite IH. split; intros (rest & Hrest); exists rest.
        -- now rewrite Hrest.
        -- change (String b p ++ rest) with (String b (p ++ rest)) in Hrest.
           now injection Hrest.
      * split; [discriminate |]. intros (rest & Hrest).
        change (String a p ++ rest) with (String a (p ++ rest)) in Hrest.
        injection Hrest as Hba _. congruence.
Qed.

Lemma append_cancel (p x y : string) : p ++ x = p ++ y -> x = y.
Proof.
  induction p as [| a p IH]; [trivial |].
  change (String a (p ++ x) = String a (p ++ y) -> x = y).
  intros [= H]. now apply IH.
Qed.

Lemma split_nonempty (sep : ascii) (s : string) : split sep s <> [].
Proof.
  destruct s as [| c s]; cbn; [discriminate |].
  destruct (Ascii.eqb c sep); [discriminate |].
  destruct (split sep s); discriminate.
Qed.

Lemma hd_split_empty (sep : ascii) (s : string) :
  hd_error (split sep s) = Some "" <-> s = "" \/ exists tail, s = String sep tail.
Proof.
  destruct s as [| c s]; cbn.
  - split; [now left | reflexivity].
  - destruct (Ascii.eqb_spec c sep) as [-> | Hc].
    + cbn. split; [right; now exists s | reflexivity].
    + destruct (split sep s); cbn;
        (split; [discriminate | intros [H | (tail & H)]; congruence]).
Qed.

Lemma hd_split_cons (sep c : ascii) (p s : string) :
  c <> sep ->
  hd_error (split sep s) = Some (String c p) <->
  exists r, s = String c r /\ hd_error (split sep r) = Some p.
Proof.
  intros Hc. destruct s as [| b s]; cbn.
  - split; [discriminate | intros (r & H & _); discriminate].
  - destruct (Ascii.eqb_spec b sep) as [-> | Hb].
    + cbn. split; [discriminate | intros (r & H & _); congruence].
    + pose proof (split_nonempty sep s) as Hne.
      destruct (split sep s) as [| piece pieces] eqn:Hsplit; [contradiction |]. cbn.
      split.
      * intros [= -> ->]. exists s. rewrite Hsplit. now split.
      * intros (r & [= -> ->] & Hr). rewrite Hsplit in Hr. cbn in Hr. congruence.
Qed.

(** X13.  The mode [main] reads off its arguments is ['api'] exactly
    when the first argument that starts with [--mode=] is [--mode=api]
    or starts with [--mode=api=]; later [--mode=] arguments do not
    count, and without any the mode is ['mcp']. *)
Theorem mode_of_api (args : list string) :
  (mode_of args = Some "api" <->
   exists a,
     List.find (fun arg => String.prefix "--mode=" arg) args = Some a /\
     (a = "--mode=api" \/ String.prefix "--mode=api=" a = true)) /\
  (List.find (fun arg => String.prefix "--mode=" arg) args = None ->
   mode_of args = Some "mcp").
Proof.
  unfold mode_of. split; [| now intros ->].
  destruct (List.find (fun arg => String.prefix "--mode=" arg) args) as [a |] eqn:Hfind.
  - apply List.find_some in Hfind as (_ & Hprefix).
    apply prefix_iff in Hprefix as (rest & ->).
    change (split "=" ("--mode=" ++ rest)) with ("--mode" :: split "=" rest).
    change (String.eqb ("--mode=" ++ rest) "") with false. cbn iota.
    change (nth_error ("--mode" :: split "=" rest) 1) with (hd_error (split "=" rest)).
    rewrite (hd_split_cons "=" "a" "pi" rest) by discriminate.
    split.
    + intros (r1 & -> & H1).
      apply (hd_split_cons "=" "p" "i" r1) in H1 as (r2 & -> & H2); [| discriminate].
      apply (hd_split_cons "=" "i" "" r2) in H2 as (r3 & -> & H3); [| discriminate].
      apply hd_split_empty in H3 as [-> | (tail & ->)].
      * eexists. split; [reflexivity |]. now left.
      * eexists. split; [reflexivity |]. right. apply prefix_iff. now exists tail.
    + intros (a & [= <-] & [Ha | Ha]).
      * apply (append_cancel "--mode=" rest "api") in Ha.
        subst rest. exists "pi". split; [reflexivity |].
        apply (hd_split_cons "=" "p" "i"); [discriminate |]. exists "i".
        split; [reflexivity |].
        apply (hd_split_cons "=" "i" ""); [discriminate |]. exists "".
        split; [reflexivity |]. apply hd_split_empty. now left.
      * apply prefix_iff in Ha as (tail & Ha).
        apply (append_cancel "--mode=" rest ("api=" ++ tail)) in Ha.
        subst rest. exists ("pi=" ++ tail). split; [reflexivity |].
        apply (hd_split_cons "=" "p" "i"); [discriminate |]. exists ("i=" ++ tail).
        split; [reflexivity |].
        apply (hd_split_cons "=" "i" ""); [discriminate |]. exists ("=" ++ tail).
        split; [reflexivity |]. apply hd_split_empty. right. now exists tail.
  - split; [discriminate |]. intros (a & Ha & _). discriminate.
Qed.


(** * The HTTP front end *)

(** X15.  The API-key hook lets a request through exactly when its URL
    starts with [/docs] or [/health] or is [/openapi.json], or when it
    carries a single [x-api-key] value that is not empty and equals
    the configured key.  Every other request is answered 401, with one
    warning in the log.  In particular, with no key configured every
    request outside the three exemptions is refused, whatever it
    sends. *)
Theorem apiKeyAuth_lets_through
    (E : Env) (url : string) (apiKey : HeaderValue) (w : World) :
  (apiKeyAuth E url apiKey w = (Returned None, w) <->
   (String.prefix "/docs" url = true \/ String.prefix "/health" url = true \/
    url = "/openapi.json") \/
   (exists k, apiKey = OneHeader k /\ k <> "" /\ k = API_KEY E)) /\
  (apiKeyAuth E url apiKey w = (Returned None, w) \/
   apiKeyAuth E url apiKey w =
     (Returned (Some {| reply_code := 401;
                        reply_body := JObj [("error", JStr "Unauthorized");
                                            ("message", JStr "Invalid or missing API key")] |}),
      extend w [Logged warn "Unauthorized request"])) /\
  (API_KEY E = "" ->
   String.prefix "/docs" url = false ->
   String.prefix "/health" url = false ->
   url <> "/openapi.json" ->
   exists r, fst (apiKeyAuth E url apiKey w) = Returned (Some r) /\ reply_code r = 401).
Proof.
  unfold apiKeyAuth, bind, ret, logger, emit, extend.
  destruct (String.prefix "/docs" url) eqn:Hdocs; cbn [orb].
  { repeat split; auto; discriminate. }
  destruct (String.prefix "/health" url) eqn:Hhealth; cbn [orb].
  { repeat split; auto; discriminate. }
  destruct (String.eqb_spec url "/openapi.json") as [Hopen | Hopen].
  { repeat split; auto; try discriminate. intros; contradiction. }
  destruct apiKey as [| v | vs]; cbn [key_refused].
  - split; [split; [discriminate |] | split; [now right |]].
    + intros [[? | [? | ?]] | (k & Hk & _)]; try discriminate; contradiction.
    + intros _ _ _ _. eexists. split; reflexivity.
  - destruct (String.eqb_spec v "") as [Hv | Hv]; cbn [orb].
    + split; [split; [discriminate |] | split; [now right |]].
      * intros [[? | [? | ?]] | (k & [= <-] & Hk & _)]; try discriminate; contradiction.
      * intros _ _ _ _. eexists. split; reflexivity.
    + destruct (String.eqb_spec v (API_KEY E)) as [He | He]; cbn [negb].
      * split; [split; [intros _; right; now exists v | reflexivity] | split; [now left |]].
        intros Hkey. congruence.
      * split; [split; [discriminate |] | split; [now right |]].
        -- intros [[? | [? | ?]] | (k & [= <-] & _ & Hk)]; try discriminate; contradiction.
        -- intros _ _ _ _. eexists. split; reflexivity.
  - split; [split; [discriminate |] | split; [now right |]].
    + intros [[? | [? | ?]] | (k & Hk & _)]; try discriminate; contradiction.
    + intros _ _ _ _. eexists. split; reflexivity.
Qed.

Lemma completion_logged (level : LogLevel) (msg : string) (evs : list Event) :
  completion (Logged level msg :: evs) = completion evs.
Proof. reflexivity. Qed.

Lemma completion_then_logged (evs : list Event) (level : LogLevel) (msg : string) :
  completion (evs ++ [Logged level msg]) = completion evs.
Proof. unfold completion. now rewrite completion_from_app. Qed.

Lemma errorHandler_logs (err : RouteError) (w : World) :
  snd (errorHandler err w) = extend w [Logged error "Request error"].
Proof.
  unfold errorHandler. run_client.
  destruct err as [errors | [e | msg cfg resp | reason |] | status_code msg];
    try destruct (String.eqb (name e) "ZodError"); reflexivity.
Qed.

(** A route under [/api/pbi] called with the right key: the hooks log
    the request and let it through to the handler. *)
Lemma serve_with_key
    (E : Env) (segment key : string) (handler : Async JsVal) (w : World) :
  key <> "" ->
  key = API_KEY E ->
  serve E ("/api/pbi/workspaces/" ++ segment) (OneHeader key) handler w =
    match handler (extend w [Logged info "Incoming request"]) with
    | (Returned body, w') => (Returned {| reply_code := 200; reply_body := body |}, w')
    | (Threw t, w') => errorHandler (Raised t) w'
    end.
Proof.
  intros Hne Hkey.
  assert (Hopen : String.prefix "/docs" ("/api/pbi/workspaces/" ++ segment)
                  || String.prefix "/health" ("/api/pbi/workspaces/" ++ segment)
                  || String.eqb ("/api/pbi/workspaces/" ++ segment) "/openapi.json" = false)
    by reflexivity.
  unfold serve, apiKeyAuth, key_refused.
  rewrite Hopen, <- Hkey, String.eqb_refl, (eqb_empty_false key Hne).
  cbn [orb negb]. unfold bind, try_catch, ret, logger, emit, extend.
  cbn [clock tokenCache trace].
  destruct (handler _) as [[body | t] w']; reflexivity.
Qed.

(** X16.  On the route [GET /api/pbi/workspaces/:workspaceId], called
    with the right API key, a failure of the token provider is
    answered with status 401, error [AuthenticationError], code
    [AUTH_ERROR] and the message of the error.  The request has been
    logged, the failure twice (by the client and by the error
    handler); no exchange with the Power BI API was made and nothing
    was retried.  (A route that catches the error itself, as
    [/health/deep] does, answers otherwise.) *)
Theorem token_failure_answered_401
    (E : Env) (idp : IdentityProvider) (net : Transport)
    (segment workspaceId key : string) (w w1 : World) (t : Thrown) :
  key <> "" ->
  key = API_KEY E ->
  getAccessToken E idp (extend w [Logged info "Incoming request"]) = (Threw t, w1) ->
  exists m,
    t = AppThrown (AuthenticationError m) /\
    route_getWorkspace E idp net segment workspaceId (OneHeader key) w =
      (Returned {| reply_code := 401;
                   reply_body := JObj [("error", JStr "AuthenticationError");
                                       ("message", JStr m);
                                       ("code", JStr "AUTH_ERROR");
                                       ("details", JUndefined)] |},
       extend w1 [Logged error "Power BI API error"; Logged error "Request error"]) /\
    http_calls (trace w1) = http_calls (trace w) /\
    sleeps (trace w1) = sleeps (trace w).
Proof.
  intros Hne Hkey Htoken.
  destruct (getAccessToken_throws_auth E idp _ w1 t Htoken) as (m & ->).
  destruct (getAccessToken_trace E idp _ w1 _ Htoken) as (evs0 & Ht0 & Hh0 & Hs0 & _).
  exists m. split; [reflexivity |]. split.
  - unfold route_getWorkspace. rewrite (serve_with_key E segment key _ w Hne Hkey).
    unfold getWorkspace, request, client_request. cbn [client]. run_client.
    rewrite Htoken. unfold errorHandler, extend. run_client.
    rewrite <- app_assoc. reflexivity.
  - rewrite Ht0. cbn [extend trace]. rewrite !http_calls_app, !sleeps_app, Hh0, Hs0. cbn.
    split; [lia | now rewrite !app_nil_r].
Qed.

(** X17.  What the route [GET /api/pbi/workspaces/:workspaceId]
    answers when called with the right API key, read off the exchange
    with the Power BI API its run completed with, which holds an
    answer of the transport.  A response outside 2xx is relayed: the
    status of the answer is the upstream status, with error
    [PowerBIError], code [POWERBI_ERROR] and the upstream body as
    details.  A 2xx response is answered 200 with the upstream body.
    No response at all is answered 500 [Internal Server Error] with
    the message of axios.  A run that completed without any exchange
    (its token request failed) is answered 401. *)
Theorem upstream_failure_relayed
    (E : Env) (idp : IdentityProvider) (net : Transport)
    (segment workspaceId key : string) (w : World) :
  let run := route_getWorkspace E idp net segment workspaceId (OneHeader key) w in
  let done := completion (events_since w (snd run)) in
  key <> "" ->
  key = API_KEY E ->
  (forall o, done = Some o -> exists now history cfg, o = outcome (net now history cfg)) /\
  exists r,
    fst run = Returned r /\
    match done with
    | Some (Answered upstream) =>
        if is_2xx (status upstream) then
          reply_code r = 200 /\ reply_body r = response_data upstream
        else
          reply_code r = status upstream /\
          opt_get (reply_body r) "error" = JStr "PowerBIError" /\
          opt_get (reply_body r) "code" = JStr "POWERBI_ERROR" /\
          opt_get (reply_body r) "details" = response_data upstream
    | Some (NoResponse reason) =>
        reply_code r = 500 /\
        reply_body r =
          JObj [("error", JStr "Internal Server Error"); ("message", JStr reason)]
    | None =>
        reply_code r = 401 /\
        opt_get (reply_body r) "error" = JStr "AuthenticationError" /\
        opt_get (reply_body r) "code" = JStr "AUTH_ERROR"
    end.
Proof.
  intros run done Hne Hkey. subst done run.
  unfold route_getWorkspace. rewrite (serve_with_key E segment key _ w Hne Hkey).
  unfold getWorkspace.
  match goal with
  | |- context [request E idp net ?c ?w0] =>
      destruct (request_completion E idp net c w0) as (evs & Ht & Hfrom & Hres);
      destruct (request E idp net c w0) as [[body | t] w'] eqn:Hreq
  end; cbn [fst snd extend trace] in *.
  - rewrite (events_since_app w w' (Logged info "Incoming request" :: evs))
      by (rewrite Ht, <- app_assoc; reflexivity).
    rewrite completion_logged. split.
    { intros o Hdone.
      destruct (completion_from_answer net evs Hfrom None o Hdone) as [Hnone | Hnet];
        [discriminate | exact Hnet]. }
    eexists. split; [reflexivity |].
    destruct (completion evs) as [[r | reason] |].
    + destruct (is_2xx (status r)); [| discriminate Hres].
      injection Hres as ->. now split.
    + destruct Hres as (cfg & Hres). discriminate Hres.
    + destruct Hres as (m & Hres). discriminate Hres.
  - assert (Hsince : completion (events_since w (snd (errorHandler (Raised t) w')))
                     = completion evs).
    { rewrite errorHandler_logs.
      rewrite (events_since_app w _
                 (Logged info "Incoming request" :: evs ++ [Logged error "Request error"]))
        by (cbn [extend trace]; rewrite Ht, <- !app_assoc; reflexivity).
      now rewrite completion_logged, completion_then_logged. }
    rewrite Hsince.
    destruct (completion evs) as [[r | reason] |] eqn:Hdone.
    + split.
      { intros o [= <-].
        destruct (completion_from_answer net evs Hfrom None _ Hdone) as [Hnone | Hnet];
          [discriminate | exact Hnet]. }
      destruct (is_2xx (status r)); [discriminate Hres |].
      injection Hres as ->.
      eexists. split; [reflexivity |]. now repeat split.
    + split.
      { intros o [= <-].
        destruct (completion_from_answer net evs Hfrom None _ Hdone) as [Hnone | Hnet];
          [discriminate | exact Hnet]. }
      destruct Hres as (cfg & [= ->]).
      eexists. split; [reflexivity |]. now split.
    + split; [discriminate |].
      destruct Hres as (m & [= ->]).
      eexists. split; [reflexivity |]. now repeat split.
Qed.

(** * The pbi-tools wrapper *)

Lemma string_app_nil_r (s : string) : s ++ "" = s.
Proof.
  induction s as [| a s IH]; [reflexivity |].
  change (String a (s ++ "") = String a s). now rewrite IH.
Qed.

Lemma string_app_assoc (s t u : string) : (s ++ t) ++ u = s ++ (t ++ u).
Proof.
  induction s as [| a s IH]; [reflexivity |].
  change (String a ((s ++ t) ++ u) = String a (s ++ (t ++ u))). now rewrite IH.
Qed.

Lemma spawned_app (t u : list HostEvent) : spawned (t ++ u) = (spawned t ++ spawned u)%list.
Proof.
  induction t as [| e t IH]; [reflexivity |].
  destruct e; cbn [spawned app]; now rewrite ?IH.
Qed.

Lemma made_dirs_app (t u : list HostEvent) :
  made_dirs (t ++ u) = (made_dirs t ++ made_dirs u)%list.
Proof.
  induction t as [| e t IH]; [reflexivity |].
  destruct e; cbn [made_dirs app]; now rewrite ?IH.
Qed.

Lemma shell_lines_one (command : string) (args : list string) (evs : list HostEvent) :
  spawned evs = [(command, args)] -> shell_lines evs = [shell_line command args].
Proof. unfold shell_lines. now intros ->. Qed.

Ltac run_task :=
  cbv beta iota delta
    [task_bind task_ret task_throw task_try host_emit host_logger host_now
     fileExists ensureDir getTempDir] in *;
  cbn [host_clock host_trace fst snd] in *.

(** The [data] handlers add the chunks to the two buffers, in order,
    and only log. *)
Lemma collect_spec (cs : list Chunk) :
  forall (out err : string) (h : Host),
  exists logs,
    collect cs out err h =
      (Returned (out ++ stdout_of cs, err ++ stderr_of cs),
       {| host_clock := host_clock h; host_trace := host_trace h ++ logs |}) /\
    spawned logs = [] /\ made_dirs logs = [].
Proof.
  induction cs as [| c cs IH]; intros out err h.
  - exists []. cbn. rewrite !string_app_nil_r, app_nil_r. destruct h. now repeat split.
  - destruct c as [text | text]; cbn [collect stdout_of stderr_of]; run_task.
    + match goal with
      | |- context [collect cs ?o ?e ?h'] => destruct (IH o e h') as (logs & -> & Hs & Hm)
      end.
      cbn [host_clock host_trace]. eexists. rewrite <- app_assoc, string_app_assoc.
      split; [reflexivity |]. now split.
    + match goal with
      | |- context [collect cs ?o ?e ?h'] => destruct (IH o e h') as (logs & -> & Hs & Hm)
      end.
      cbn [host_clock host_trace]. eexists. rewrite <- app_assoc, string_app_assoc.
      split; [reflexivity |]. now split.
Qed.

(** The message of the error of a run that did not exit with 0. *)
Lemma execute_spec (E : Env) (M : Machine) (args : list string) (h : Host) :
  exists evs,
    snd (execute E M args h) =
      {| host_clock := endedAt (spawn M (host_clock h) (host_trace h) (PBI_TOOLS_PATH E) args);
         host_trace := host_trace h ++ evs |} /\
    spawned evs = [(PBI_TOOLS_PATH E, args)] /\
    made_dirs evs = [] /\
    fst (execute E M args h) =
      match ending (spawn M (host_clock h) (host_trace h) (PBI_TOOLS_PATH E) args) with
      | SpawnError msg =>
          Threw (AppThrown (PBIToolsError ("Failed to spawn pbi-tools: " ++ msg) JUndefined))
      | Close exit_code =>
          let out := stdout_of (chunks (spawn M (host_clock h) (host_trace h)
                                          (PBI_TOOLS_PATH E) args)) in
          let err := stderr_of (chunks (spawn M (host_clock h) (host_trace h)
                                          (PBI_TOOLS_PATH E) args)) in
          match exit_code with
          | Some 0 => Returned out
          | _ =>
              Threw (AppThrown (PBIToolsError
                (if negb (String.eqb err "") then err
                 else if negb (String.eqb out "") then out
                 else "Process exited with code " ++ show_exit_code exit_code)
                JUndefined))
          end
      end.
Proof.
  unfold execute. run_task.
  match goal with
  | |- context [collect ?cs ?o ?e ?h'] => destruct (collect_spec cs o e h') as (logs & -> & Hs & Hm)
  end.
  cbn [host_clock host_trace fst snd].
  change ("" ++ ?s) with s.
  destruct (ending (spawn M (host_clock h) (host_trace h) (PBI_TOOLS_PATH E) args))
    as [msg | [[| p | p] |]]; cbn [fst snd host_trace host_clock];
    (eexists; rewrite <- ?app_assoc; split; [reflexivity |]);
    rewrite ?spawned_app, ?made_dirs_app, ?Hs, ?Hm; cbn; now repeat split.
Qed.

(** X18.  One run of [pbi-tools].  [execute] calls [spawn] exactly
    once, with [shell: true]: what runs is a shell, on the line made
    of the configured command and the arguments joined by single
    spaces, nothing quoted.  The outcome depends on that line only:
    argument lists that join to the same line cannot be told apart, so
    an argument with a space in it reaches the tool as two.  If the
    shell exits with code 0 the result is what was written to standard
    output, chunk after chunk, whatever was written to standard error.
    With any other exit code (or none) the [PBIToolsError] carries
    standard error if there is any, else standard output if there is
    any, else the exit code. *)
Theorem execute_outcome (E : Env) (M : Machine) (args : list string) (h : Host) :
  let line := String.concat " " (PBI_TOOLS_PATH E :: args) in
  let run := run_shell M (host_clock h) (host_trace h) line in
  (exists evs,
     host_trace (snd (execute E M args h)) = (host_trace h ++ evs)%list /\
     spawned evs = [(PBI_TOOLS_PATH E, args)] /\
     shell_lines evs = [line]) /\
  (forall args',
     String.concat " " (PBI_TOOLS_PATH E :: args') = line ->
     fst (execute E M args' h) = fst (execute E M args h) /\
     host_clock (snd (execute E M args' h)) = host_clock (snd (execute E M args h))) /\
  (ending run = Close (Some 0) ->
   fst (execute E M args h) = Returned (stdout_of (chunks run))) /\
  (forall c,
     ending run = Close c -> c <> Some 0 ->
     exists msg,
       fst (execute E M args h) = Threw (AppThrown (PBIToolsError msg JUndefined)) /\
       (stderr_of (chunks run) <> "" -> msg = stderr_of (chunks run)) /\
       (stderr_of (chunks run) = "" -> stdout_of (chunks run) <> "" ->
        msg = stdout_of (chunks run)) /\
       (stderr_of (chunks run) = "" -> stdout_of (chunks run) = "" ->
        msg = "Process exited with code " ++ show_exit_code c)).
Proof.
  intros line run. destruct (execute_spec E M args h) as (evs & Hh & Hs & _ & Hres).
  change (spawn M (host_clock h) (host_trace h) (PBI_TOOLS_PATH E) args) with run in Hh, Hres.
  split; [| split; [| split]].
  - exists evs. rewrite Hh. split; [reflexivity |]. split; [exact Hs |].
    exact (shell_lines_one _ _ _ Hs).
  - intros args' Hline.
    destruct (execute_spec E M args' h) as (evs' & Hh' & _ & _ & Hres').
    assert (Hsame : spawn M (host_clock h) (host_trace h) (PBI_TOOLS_PATH E) args' = run).
    { unfold spawn, shell_line. now rewrite Hline. }
    rewrite Hsame in Hh', Hres'. rewrite Hres, Hres', Hh, Hh'. now split.
  - intros Hend. now rewrite Hres, Hend.
  - intros c Hend Hc. rewrite Hres, Hend. cbv zeta.
    assert (Hmsg : forall m,
      (stderr_of (chunks run) <> "" -> m = stderr_of (chunks run)) /\
      (stderr_of (chunks run) = "" -> stdout_of (chunks run) <> "" ->
       m = stdout_of (chunks run)) /\
      (stderr_of (chunks run) = "" -> stdout_of (chunks run) = "" ->
       m = "Process exited with code " ++ show_exit_code c) <->
      m = (if negb (String.eqb (stderr_of (chunks run)) "") then stderr_of (chunks run)
           else if negb (String.eqb (stdout_of (chunks run)) "") then stdout_of (chunks run)
           else "Process exited with code " ++ show_exit_code c)).
    { intros m.
      destruct (String.eqb_spec (stderr_of (chunks run)) "") as [He | He];
        destruct (String.eqb_spec (stdout_of (chunks run)) "") as [Ho | Ho]; cbn [negb];
        split; try (intros (H1 & H2 & H3); auto; fail);
        intros ->; repeat split; intros; try reflexivity; contradiction. }
    destruct c as [[| p | p] |]; try (now contradiction Hc);
      (eexists; split; [reflexivity |]; now apply Hmsg).
Qed.

Lemma execute_run (E : Env) (M : Machine) (args : list string) (h : Host) :
  exists c evs,
    execute E M args h =
      (c, {| host_clock := endedAt (spawn M (host_clock h) (host_trace h)
                                      (PBI_TOOLS_PATH E) args);
             host_trace := host_trace h ++ evs |}) /\
    spawned evs = [(PBI_TOOLS_PATH E, args)] /\
    made_dirs evs = [] /\
    (ending (spawn M (host_clock h) (host_trace h) (PBI_TOOLS_PATH E) args) = Close (Some 0) ->
     c = Returned (stdout_of (chunks (spawn M (host_clock h) (host_trace h)
                                        (PBI_TOOLS_PATH E) args)))) /\
    (ending (spawn M (host_clock h) (host_trace h) (PBI_TOOLS_PATH E) args) <> Close (Some 0) ->
     exists msg, c = Threw (AppThrown (PBIToolsError msg JUndefined))) /\
    (forall t, c = Threw t -> exists msg, t = AppThrown (PBIToolsError msg JUndefined)).
Proof.
  destruct (execute_spec E M args h) as (evs & Hh & Hs & Hm & Hres).
  exists (fst (execute E M args h)), evs.
  rewrite <- Hh, <- surjective_pairing. split; [reflexivity |].
  split; [exact Hs |]. split; [exact Hm |]. rewrite Hres. split; [| split].
  - now intros ->.
  - intros Hne.
    destruct (ending (spawn M (host_clock h) (host_trace h) (PBI_TOOLS_PATH E) args))
      as [msg | [[| p | p] |]]; try (eexists; reflexivity). now contradiction Hne.
  - intros t.
    destruct (ending (spawn M (host_clock h) (host_trace h) (PBI_TOOLS_PATH E) args))
      as [msg | [[| p | p] |]]; cbv zeta; intros [= <-]; eexists; reflexivity.
Qed.

(** X19.  [checkAvailability] never throws.  It runs [pbi-tools info]
    once and answers [true] exactly when that run exits with code
    0. *)
Theorem checkAvailability_never_throws (E : Env) (M : Machine) (h : Host) :
  exists b evs,
    fst (checkAvailability E M h) = Returned b /\
    host_trace (snd (checkAvailability E M h)) = (host_trace h ++ evs)%list /\
    spawned evs = [(PBI_TOOLS_PATH E, ["info"])] /\
    (b = true <->
     ending (spawn M (host_clock h) (host_trace h) (PBI_TOOLS_PATH E) ["info"])
       = Close (Some 0)).
Proof.
  unfold checkAvailability, task_try, task_bind, task_ret.
  destruct (execute_run E M ["info"] h) as (c & evs & -> & Hs & _ & Hok & Hko & _).
  destruct c as [text | t]; cbn [fst snd host_trace].
  - exists true, evs. repeat split; auto.
    intros _.
    destruct (ending (spawn M (host_clock h) (host_trace h) (PBI_TOOLS_PATH E) ["info"]))
      as [msg | [[| p | p] |]] eqn:Hend; try reflexivity;
      (destruct Hko as (m & Hm); [discriminate | discriminate Hm]).
  - exists false, evs. repeat split; auto; try discriminate.
    intros Hend. specialize (Hok Hend). discriminate.
Qed.

(** X20.  [extract] on a file that is not there fails with the
    [PBIToolsError] naming the file, status code 500: it has only
    probed the path; no directory is created and no process is
    started. *)
Theorem extract_missing_file
    (E : Env) (M : Machine) (options : ExtractOptions) (h : Host) :
  access M (host_clock h) (host_trace h) (filePath options) = false ->
  exists e h',
    extract E M options h = (Threw (AppThrown e), h') /\
    e = PBIToolsError ("File not found: " ++ filePath options) JUndefined /\
    statusCode e = 500 /\
    host_trace h' = (host_trace h ++ [Accessed (filePath options)])%list /\
    spawned (host_trace h') = spawned (host_trace h) /\
    made_dirs (host_trace h') = made_dirs (host_trace h).
Proof.
  intros Hmissing. unfold extract. run_task. rewrite Hmissing. cbn [negb].
  eexists _, _. split; [reflexivity |]. cbn [host_trace].
  rewrite spawned_app, made_dirs_app. cbn. rewrite !app_nil_r. now repeat split.
Qed.

(** X21.  What [extract] can fail with: the [PBIToolsError] for a
    file that is not there; the error of [fs.mkdir], passed on as it
    is; or the [PBIToolsError] [Failed to extract PBIX], whose details
    are the [PBIToolsError] of the run.  What the tool printed is in
    the details at most, never in the message. *)
Theorem extract_failures
    (E : Env) (M : Machine) (options : ExtractOptions) (h : Host) (t : Thrown) :
  fst (extract E M options h) = Threw t ->
  t = AppThrown (PBIToolsError ("File not found: " ++ filePath options) JUndefined) \/
  (exists reason, t = OtherThrown reason) \/
  (exists det,
     t = AppThrown (PBIToolsError "Failed to extract PBIX" det) /\
     opt_get det "name" = JStr "PBIToolsError" /\
     opt_get det "code" = JStr "PBI_TOOLS_ERROR").
Proof.
  unfold extract. run_task.
  destruct (access M (host_clock h) (host_trace h) (filePath options)); cbn [negb];
    [| intros [= <-]; now left].
  set (dir := match outDir options with
              | Some d => if String.eqb d "" then _ else _
              | None => _
              end).
  assert (Hdir : forall h0, exists d h1, dir h0 = (Returned d, h1)).
  { intros h0. subst dir. destruct (outDir options) as [d |]; [destruct (String.eqb d "") |];
      eexists _, _; reflexivity. }
  match goal with
  | |- context [dir ?h0] => destruct (Hdir h0) as (d & h1 & ->)
  end.
  cbn [host_clock host_trace].
  destruct (mkdir M (host_clock h1) (host_trace h1) d) as [reason |].
  { intros [= <-]. right. left. now exists reason. }
  cbn [host_clock host_trace].
  match goal with
  | |- context [execute E M ?a ?h2] =>
      destruct (execute_run E M a h2) as (c & evs & -> & _ & _ & _ & _ & Hthrown)
  end.
  destruct c as [text | t']; [discriminate |].
  destruct (Hthrown t' eq_refl) as (m & ->).
  intros [= <-]. right. right. eexists. split; [reflexivity | now split].
Qed.

(** X22.  [extract] on a file that is there, with a directory that
    can be created and a shell run that exits with 0: it returns the
    output directory, after creating exactly that directory and
    calling [spawn] exactly once.  The shell runs the line made of the
    command, [extract], the file, [-extractFolder] and the directory,
    with [-modelOnly] only when asked, joined by spaces with the two
    paths unquoted.  The directory is [outDir] when one is given and
    not empty, else one under [tmp] in the working directory, named
    after the clock as it is read once the check of the file has
    settled. *)
Theorem extract_success
    (E : Env) (M : Machine) (options : ExtractOptions) (h : Host) :
  let temp :=
    path_join M [cwd M; "tmp";
                 "extract-" ++ pretty (fs_done M (host_clock h) (host_trace h)
                                         (filePath options))] in
  let dir :=
    match outDir options with
    | Some d => if String.eqb d "" then temp else d
    | None => temp
    end in
  let args :=
    (["extract"; filePath options; "-extractFolder"; dir]
     ++ match modelOnly options with
        | Some true => ["-modelOnly"]
        | _ => []
        end)%list in
  access M (host_clock h) (host_trace h) (filePath options) = true ->
  (forall t tr, mkdir M t tr dir = None) ->
  (forall t tr,
     ending (run_shell M t tr (String.concat " " (PBI_TOOLS_PATH E :: args)))
     = Close (Some 0)) ->
  exists evs,
    fst (extract E M options h) = Returned dir /\
    host_trace (snd (extract E M options h)) = (host_trace h ++ evs)%list /\
    made_dirs evs = [dir] /\
    spawned evs = [(PBI_TOOLS_PATH E, args)] /\
    shell_lines evs = [String.concat " " (PBI_TOOLS_PATH E :: args)].
Proof.
  intros temp dir args Hfile Hmkdir Hrun. unfold extract. run_task. rewrite Hfile. cbn [negb].
  subst args dir temp.
  destruct (outDir options) as [d |]; [destruct (String.eqb d "") |];
    cbn [host_clock host_trace]; rewrite Hmkdir; cbn [host_clock host_trace];
    match goal with
    | |- context [execute E M ?a ?h2] =>
        destruct (execute_run E M a h2) as (c & evs & -> & Hs & Hm & Hok & _ & _)
    end;
    rewrite (Hok (Hrun _ _)); cbn [fst snd host_clock host_trace];
    eexists; (split; [reflexivity |]);
    rewrite <- !app_assoc; (split; [reflexivity |]);
    unfold shell_lines;
    rewrite !made_dirs_app, !spawned_app, Hs, Hm; cbn; now repeat split.
Qed.

(** X23.  [compile] checks for the output file inside the very [try]
    whose [catch] wraps every error: when the shell run exits with 0
    but the output file is not there, the error raised says [Failed to
    compile project]; the message [Output file was not created] is
    found in its details only.  By then the directory of the output
    path has been created and [spawn] called once: the shell has run
    the line made of the command, [compile], the project, [-outPath],
    the output path, [-format] and the format ([PBIX] unless given),
    joined by spaces with the two paths unquoted. *)
Theorem compile_output_not_created
    (E : Env) (M : Machine) (options : CompileOptions) (h : Host) (p : string) :
  let args :=
    ["compile"; projectDir options; "-outPath"; p; "-format";
     format_name (default PBIX (format options))] in
  access M (host_clock h) (host_trace h) (projectDir options) = true ->
  outPath options = Some p ->
  p <> "" ->
  (forall t tr, mkdir M t tr (path_dirname M p) = None) ->
  (forall t tr,
     ending (run_shell M t tr (String.concat " " (PBI_TOOLS_PATH E :: args)))
     = Close (Some 0)) ->
  (forall t tr, spawned tr <> [] -> access M t tr p = false) ->
  exists det evs,
    fst (compile E M options h) =
      Threw (AppThrown (PBIToolsError "Failed to compile project" det)) /\
    opt_get det "name" = JStr "PBIToolsError" /\
    opt_get det "message" = JStr "Output file was not created" /\
    host_trace (snd (compile E M options h)) = (host_trace h ++ evs)%list /\
    made_dirs evs = [path_dirname M p] /\
    spawned evs = [(PBI_TOOLS_PATH E, args)] /\
    shell_lines evs = [String.concat " " (PBI_TOOLS_PATH E :: args)].
Proof.
  intros args Hproject Hout Hp Hmkdir Hrun Habsent.
  unfold compile. run_task. rewrite Hproject, Hout. cbn [negb].
  rewrite (eqb_empty_false p Hp). cbn [host_clock host_trace].
  rewrite Hmkdir. cbn [host_clock host_trace].
  match goal with
  | |- context [execute E M ?a ?h2] =>
      destruct (execute_run E M a h2) as (c & evs & -> & Hs & Hm & Hok & _ & _)
  end.
  rewrite (Hok (Hrun _ _)). cbn [fst snd host_clock host_trace].
  rewrite Habsent.
  - cbn [negb fst snd host_trace]. eexists _, _.
    split; [reflexivity |]. split; [reflexivity |]. split; [reflexivity |].
    rewrite <- !app_assoc. split; [reflexivity |].
    unfold shell_lines. rewrite !made_dirs_app, !spawned_app, Hs, Hm. cbn. now repeat split.
  - rewrite !spawned_app, Hs. intros Hnil. apply app_eq_nil in Hnil as (_ & Hnil).
    discriminate.
Qed.

(** X24.  The tool [checkPbiTools] starts [pbi-tools info] and nothing
    else, at most twice.  When the first run does not exit with 0 it
    stops there and answers that the tool is not available, with
    [info] set to [null]. *)
Theorem checkPbiTools_runs (E : Env) (M : Machine) (h : Host) :
  exists evs,
    host_trace (snd (checkPbiTools E M h)) = (host_trace h ++ evs)%list /\
    (length (spawned evs) <= 2)%nat /\
    Forall (fun run => run = (PBI_TOOLS_PATH E, ["info"])) (spawned evs) /\
    (ending (spawn M (host_clock h) (host_trace h) (PBI_TOOLS_PATH E) ["info"])
       <> Close (Some 0) ->
     fst (checkPbiTools E M h) =
       Returned (JObj [("success", JBool false); ("available", JBool false);
                       ("info", JNull)]) /\
     length (spawned evs) = 1%nat).
Proof.
  unfold checkPbiTools, checkAvailability, getInfo, task_try, task_bind, task_ret, task_throw.
  destruct (execute_run E M ["info"] h) as (c & evs & -> & Hs & _ & Hok & Hko & _).
  destruct c as [text | t]; cbn [fst snd host_trace host_clock].
  - match goal with
    | |- context [execute E M ?a ?h2] =>
        destruct (execute_run E M a h2) as (c2 & evs2 & -> & Hs2 & _ & _ & _ & _)
    end.
    exists (evs ++ evs2)%list.
    destruct c2 as [text2 | t2]; cbn [fst snd host_trace];
      rewrite <- app_assoc, spawned_app, Hs, Hs2; cbn;
      (split; [reflexivity |]); (split; [lia |]); (split; [repeat constructor |]);
      intros Hne; destruct (Hko Hne) as (m & Hm); discriminate Hm.
  - exists evs. rewrite Hs. cbn.
    split; [reflexivity |]. split; [lia |]. split; [repeat constructor |].
    intros _. now split.
Qed.

(** * The further properties at the scenarios *)

Lemma request_bounded_backoff_witness :
  exists evs n,
    trace (snd (request (env process_env_P7) provider_P7 transport_unavailable
                  get_report world_warm)) = (trace world_warm ++ evs)%list /\
    (n <= 3)%nat /\
    sleeps evs = firstn n [1000; 2000; 4000] /\
    (n <= http_calls evs <= S n)%nat /\
    fst (request (env process_env_P7) provider_P7 transport_unavailable
           get_report world_warm) <> Threw OutOfFuel.
Proof.
  exact (request_bounded_backoff (env process_env_P7) provider_P7 transport_unavailable
           get_report world_warm eq_refl).
Defined.



Lemma request_always_authorized_witness :
  exists evs,
    trace (snd (request (env process_env_P7) provider_P7 transport_unavailable
                  get_report world_after_first)) = (trace world_after_first ++ evs)%list /\
    Forall authorized evs.
Proof.
  exact (request_always_authorized (env process_env_P7) provider_P7 transport_unavailable
           get_report world_after_first world_after_first_reachable).
Defined.

Lemma request_stops_on_token_failure_witness :
  fst (request (env process_env_no_secret) provider_P7 transport_not_found
         get_report world_start)
    = Threw (AppThrown (AuthenticationError
        "CLIENT_SECRET is required for service principal authentication")) /\
  http_calls (trace (snd (request (env process_env_no_secret) provider_P7 transport_not_found
                            get_report world_start))) = 0%nat.
Proof.
  destruct (request_stops_on_token_failure (env process_env_no_secret) provider_P7
              transport_not_found get_report world_start
              (extend world_start [Logged info "Acquiring new access token"])
              (AppThrown (AuthenticationError
                 "CLIENT_SECRET is required for service principal authentication"))
              ltac:(vm_compute; reflexivity))
    as (Hreq & _ & Hhttp & _).
  split; [now rewrite Hreq | exact Hhttp].
Defined.

Lemma request_single_exchange_witness :
  exists evs,
    trace (snd (request (env process_env_P7) provider_P7 transport_not_found
                  get_report world_warm))
      = (trace (extend world_warm [Logged debug "Using cached access token"]) ++ evs)%list /\
    http_calls evs = 1%nat /\
    sleeps evs = [] /\
    fst (request (env process_env_P7) provider_P7 transport_not_found get_report world_warm)
      = Threw (AppThrown (PowerBIError (JStr "Report not found") (Some 404)
                            (response_data not_found))).
Proof.
  apply (request_single_exchange (env process_env_P7) provider_P7 transport_not_found
           get_report world_warm
           (extend world_warm [Logged debug "Using cached access token"])
           "TOK123" (Answered not_found));
    [vm_compute; reflexivity | reflexivity | cbn; split; [discriminate | reflexivity]].
Defined.

Lemma device_code_prompt_displayed_witness :
  exists evs,
    trace (snd (getAccessToken (env process_env_device) provider_device_declined world_start))
      = (trace world_start ++ evs)%list /\
    printed evs =
      [newline ++ repeat_string "=" 60;
       "      DEVICE CODE AUTHENTICATION";
       repeat_string "=" 60;
       "1. Visit: https://microsoft.com/devicelogin";
       "2. Enter Code: ABCD-1234";
       repeat_string "=" 60 ++ newline] /\
    In (Logged info "Open: https://microsoft.com/devicelogin") evs /\
    In (Logged info "Enter Code: ABCD-1234") evs.
Proof.
  exact (device_code_prompt_displayed (env process_env_device) provider_device_declined
           world_start device_prompt
           {| settled := Rejected "authorization_declined";
              settledAt := 1700000000000 + 60000 |}
           eq_refl ltac:(vm_compute; reflexivity) eq_refl).
Defined.

Lemma getAccessToken_failure_messages_witness :
  exists e m,
    AppThrown (AuthenticationError "Device code authentication failed") = AppThrown e /\
    e = AuthenticationError m /\
    In m [configuration_error (env process_env_device);
          rejection_error (env process_env_device);
          "Failed to acquire access token"] /\
    statusCode e = 401 /\
    code e = Some "AUTH_ERROR".
Proof.
  exact (getAccessToken_failure_messages (env process_env_device) provider_device_declined
           world_start
           (snd (getAccessToken (env process_env_device) provider_device_declined world_start))
           (AppThrown (AuthenticationError "Device code authentication failed"))
           ltac:(vm_compute; reflexivity)).
Defined.

Lemma device_code_ignores_secret_witness :
  getAccessToken (with_secret (env process_env_device) "s3cr3t")
    provider_device_declined world_start
  = getAccessToken (env process_env_device) provider_device_declined world_start.
Proof.
  exact (device_code_ignores_secret (env process_env_device) provider_device_declined
           world_start "s3cr3t" ltac:(vm_compute; reflexivity)).
Defined.

Lemma credential_slot_invariant_witness :
  accessToken {| accessToken := "TOK123"; expiresOn := 1700000000000 + 3600 * 1000 |} <> "" /\
  strategy_ready (env process_env_P7) /\
  (1 <= network_calls (trace world_after_first))%nat.
Proof.
  exact (credential_slot_invariant (env process_env_P7) provider_P7 world_after_first
           {| accessToken := "TOK123"; expiresOn := 1700000000000 + 3600 * 1000 |}
           world_after_first_reachable ltac:(vm_compute; reflexivity)).
Defined.

Lemma token_failure_answered_401_witness :
  exists m,
    AppThrown (AuthenticationError
      "CLIENT_SECRET is required for service principal authentication")
    = AppThrown (AuthenticationError m) /\
    route_getWorkspace (env process_env_api_no_secret) provider_P7 transport_not_found
      "g1" "g1" (OneHeader "k3y") world_start =
      (Returned {| reply_code := 401;
                   reply_body := JObj [("error", JStr "AuthenticationError");
                                       ("message", JStr m);
                                       ("code", JStr "AUTH_ERROR");
                                       ("details", JUndefined)] |},
       extend (extend world_start [Logged info "Incoming request";
                                   Logged info "Acquiring new access token"])
         [Logged error "Power BI API error"; Logged error "Request error"]) /\
    http_calls (trace (extend world_start [Logged info "Incoming request";
                                           Logged info "Acquiring new access token"]))
      = http_calls (trace world_start) /\
    sleeps (trace (extend world_start [Logged info "Incoming request";
                                       Logged info "Acquiring new access token"]))
      = sleeps (trace world_start).
Proof.
  exact (token_failure_answered_401 (env process_env_api_no_secret) provider_P7
           transport_not_found "g1" "g1" "k3y" world_start
           (extend world_start [Logged info "Incoming request";
                                Logged info "Acquiring new access token"])
           (AppThrown (AuthenticationError
              "CLIENT_SECRET is required for service principal authentication"))
           ltac:(discriminate) ltac:(vm_compute; reflexivity)
           ltac:(vm_compute; reflexivity)).
Defined.

Lemma upstream_failure_relayed_witness :
  completion (events_since world_warm
    (snd (route_getWorkspace (env process_env_api) provider_P7 transport_unavailable
            "g1" "g1" (OneHeader "k3y") world_warm))) = Some (Answered unavailable) /\
  exists r,
    fst (route_getWorkspace (env process_env_api) provider_P7 transport_unavailable
           "g1" "g1" (OneHeader "k3y") world_warm) = Returned r /\
    reply_code r = 503 /\
    opt_get (reply_body r) "error" = JStr "PowerBIError" /\
    opt_get (reply_body r) "code" = JStr "POWERBI_ERROR" /\
    opt_get (reply_body r) "details" = JStr "Service Unavailable".
Proof.
  assert (Hdone :
    completion (events_since world_warm
      (snd (route_getWorkspace (env process_env_api) provider_P7 transport_unavailable
              "g1" "g1" (OneHeader "k3y") world_warm))) = Some (Answered unavailable))
    by (vm_compute; reflexivity).
  split; [exact Hdone |].
  destruct (upstream_failure_relayed (env process_env_api) provider_P7
              transport_unavailable "g1" "g1" "k3y" world_warm
              ltac:(discriminate) ltac:(vm_compute; reflexivity))
    as (_ & r & Hr & Hreply).
  rewrite Hdone in Hreply.
  exists r. split; [exact Hr | exact Hreply].
Defined.

Lemma extract_missing_file_witness :
  exists e h',
    extract (env process_env_P7) machine_ready extract_lost host_start
      = (Threw (AppThrown e), h') /\
    e = PBIToolsError "File not found: /data/lost.pbix" JUndefined /\
    statusCode e = 500 /\
    host_trace h' = [Accessed "/data/lost.pbix"] /\
    spawned (host_trace h') = [] /\
    made_dirs (host_trace h') = [].
Proof.
  exact (extract_missing_file (env process_env_P7) machine_ready extract_lost host_start
           eq_refl).
Defined.

Lemma extract_failures_witness :
  fst (extract (env process_env_P7) machine_no_tool extract_sales host_start)
    = Threw (AppThrown (PBIToolsError "Failed to extract PBIX"
               (error_value (AppThrown
                  (PBIToolsError "pbi-tools: command not found" JUndefined))))) /\
  (AppThrown (PBIToolsError "Failed to extract PBIX"
     (error_value (AppThrown (PBIToolsError "pbi-tools: command not found" JUndefined))))
   = AppThrown (PBIToolsError "File not found: /data/sales.pbix" JUndefined) \/
   (exists reason,
      AppThrown (PBIToolsError "Failed to extract PBIX"
        (error_value (AppThrown (PBIToolsError "pbi-tools: command not found" JUndefined))))
      = OtherThrown reason) \/
   (exists det,
      AppThrown (PBIToolsError "Failed to extract PBIX"
        (error_value (AppThrown (PBIToolsError "pbi-tools: command not found" JUndefined))))
      = AppThrown (PBIToolsError "Failed to extract PBIX" det) /\
      opt_get det "name" = JStr "PBIToolsError" /\
      opt_get det "code" = JStr "PBI_TOOLS_ERROR")).
Proof.
  assert (Hfail :
    fst (extract (env process_env_P7) machine_no_tool extract_sales host_start)
    = Threw (AppThrown (PBIToolsError "Failed to extract PBIX"
               (error_value (AppThrown
                  (PBIToolsError "pbi-tools: command not found" JUndefined))))))
    by (vm_compute; reflexivity).
  split; [exact Hfail |].
  exact (extract_failures (env process_env_P7) machine_no_tool extract_sales host_start _ Hfail).
Defined.

Lemma extract_success_witness :
  exists evs,
    fst (extract (env process_env_P7) machine_ready extract_fresh host_start)
      = Returned "/srv/app/tmp/extract-1700000000005" /\
    host_trace (snd (extract (env process_env_P7) machine_ready extract_fresh host_start))
      = (host_trace host_start ++ evs)%list /\
    made_dirs evs = ["/srv/app/tmp/extract-1700000000005"] /\
    spawned evs =
      [("pbi-tools",
        ["extract"; "/data/sales.pbix"; "-extractFolder";
         "/srv/app/tmp/extract-1700000000005"; "-modelOnly"])] /\
    shell_lines evs =
      ["pbi-tools extract /data/sales.pbix -extractFolder /srv/app/tmp/extract-1700000000005 -modelOnly"].
Proof.
  exact (extract_success (env process_env_P7) machine_ready extract_fresh host_start
           eq_refl (fun _ _ => eq_refl) (fun _ _ => eq_refl)).
Defined.

Lemma compile_output_not_created_witness :
  exists det evs,
    fst (compile (env process_env_P7) machine_ready compile_sales host_start) =
      Threw (AppThrown (PBIToolsError "Failed to compile project" det)) /\
    opt_get det "name" = JStr "PBIToolsError" /\
    opt_get det "message" = JStr "Output file was not created" /\
    host_trace (snd (compile (env process_env_P7) machine_ready compile_sales host_start))
      = (host_trace host_start ++ evs)%list /\
    made_dirs evs = ["/out"] /\
    spawned evs =
      [("pbi-tools",
        ["compile"; "/work/sales"; "-outPath"; "/out/sales.pbix"; "-format"; "PBIX"])] /\
    shell_lines evs =
      ["pbi-tools compile /work/sales -outPath /out/sales.pbix -format PBIX"].
Proof.
  exact (compile_output_not_created (env process_env_P7) machine_ready compile_sales
           host_start "/out/sales.pbix" eq_refl eq_refl
           ltac:(discriminate) (fun _ _ => eq_refl) (fun _ _ => eq_refl)
           (fun _ _ _ => eq_refl)).
Defined.

(** X25.  [compile] on a project that is there, with a shell run that
    exits with 0 and leaves the output file: it returns the output
    path, after creating the directory of that path and calling
    [spawn] once.  The shell runs the line made of the command,
    [compile], the project, [-outPath], the output path, [-format] and
    the format, joined by spaces with the two paths unquoted.  The
    format is [PBIX] unless given; the output path is [outPath] when
    one is given and not empty, else [output.pbix] or [output.pbit] in
    a directory under [tmp] in the working directory, named after the
    clock as it is read once the check of the project has settled. *)
Theorem compile_success
    (E : Env) (M : Machine) (options : CompileOptions) (h : Host) :
  let fmt := default PBIX (format options) in
  let temp :=
    path_join M
      [path_join M [cwd M; "tmp";
                    "compile-" ++ pretty (fs_done M (host_clock h) (host_trace h)
                                            (projectDir options))];
       "output." ++ format_lower fmt] in
  let out :=
    match outPath options with
    | Some p => if String.eqb p "" then temp else p
    | None => temp
    end in
  let args := ["compile"; projectDir options; "-outPath"; out; "-format"; format_name fmt] in
  access M (host_clock h) (host_trace h) (projectDir options) = true ->
  (forall t tr, mkdir M t tr (path_dirname M out) = None) ->
  (forall t tr,
     ending (run_shell M t tr (String.concat " " (PBI_TOOLS_PATH E :: args)))
     = Close (Some 0)) ->
  (forall t tr, spawned tr <> [] -> access M t tr out = true) ->
  exists evs,
    fst (compile E M options h) = Returned out /\
    host_trace (snd (compile E M options h)) = (host_trace h ++ evs)%list /\
    made_dirs evs = [path_dirname M out] /\
    spawned evs = [(PBI_TOOLS_PATH E, args)] /\
    shell_lines evs = [String.concat " " (PBI_TOOLS_PATH E :: args)].
Proof.
  intros fmt temp out args Hproject Hmkdir Hrun Hcreated.
  unfold compile. run_task. rewrite Hproject. cbn [negb]. fold fmt.
  assert (Hspawned : forall (tr evs : list HostEvent) run,
            spawned evs = [run] -> spawned (tr ++ evs) <> []).
  { intros tr evs run Hs. rewrite spawned_app, Hs. intros Hnil.
    apply app_eq_nil in Hnil as (_ & Hnil). discriminate. }
  subst args out temp.
  destruct (outPath options) as [p |]; [destruct (String.eqb p "") |];
    cbn [host_clock host_trace]; rewrite Hmkdir; cbn [host_clock host_trace];
    match goal with
    | |- context [execute E M ?a ?h2] =>
        destruct (execute_run E M a h2) as (c & evs & -> & Hs & Hm & Hok & _ & _)
    end;
    rewrite (Hok (Hrun _ _)); cbn [fst snd host_clock host_trace];
    (rewrite Hcreated by (eapply Hspawned; exact Hs));
    cbn [negb fst snd host_trace];
    eexists; (split; [reflexivity |]);
    rewrite <- !app_assoc; (split; [reflexivity |]);
    unfold shell_lines;
    rewrite !made_dirs_app, !spawned_app, Hs, Hm; cbn; now repeat split.
Qed.

Lemma compile_success_witness :
  exists evs,
    fst (compile (env process_env_P7) machine_compiling compile_template host_start)
      = Returned "/srv/app/tmp/compile-1700000000005/output.pbit" /\
    host_trace (snd (compile (env process_env_P7) machine_compiling compile_template
                       host_start))
      = (host_trace host_start ++ evs)%list /\
    made_dirs evs = ["/srv/app/tmp/compile-1700000000005"] /\
    spawned evs =
      [("pbi-tools",
        ["compile"; "/work/sales"; "-outPath";
         "/srv/app/tmp/compile-1700000000005/output.pbit"; "-format"; "PBIT"])] /\
    shell_lines evs =
      ["pbi-tools compile /work/sales -outPath /srv/app/tmp/compile-1700000000005/output.pbit -format PBIT"].
Proof.
  exact (compile_success (env process_env_P7) machine_compiling compile_template host_start
           eq_refl (fun _ _ => eq_refl) (fun _ _ => eq_refl)
           (fun t tr Hrun =>
              match spawned tr as l return l <> [] -> match l with
                                                     | [] => false
                                                     | _ => true
                                                     end = true with
              | [] => fun Hne => match Hne eq_refl with end
              | _ :: _ => fun _ => eq_refl
              end Hrun)).
Defined.

Lemma execute_outcome_witness :
  (exists evs,
     host_trace (snd (execute (env process_env_P7) machine_ready
                        ["extract"; "/data/my report.pbix"] host_start))
       = (host_trace host_start ++ evs)%list /\
     spawned evs = [("pbi-tools", ["extract"; "/data/my report.pbix"])] /\
     shell_lines evs = ["pbi-tools extract /data/my report.pbix"]) /\
  fst (execute (env process_env_P7) machine_ready
         ["extract"; "/data/my"; "report.pbix"] host_start)
  = fst (execute (env process_env_P7) machine_ready
           ["extract"; "/data/my report.pbix"] host_start).
Proof.
  pose proof (execute_outcome (env process_env_P7) machine_ready
                ["extract"; "/data/my report.pbix"] host_start) as Hrun.
  split; [exact (proj1 Hrun) |].
  exact (proj1 (proj1 (proj2 Hrun) ["extract"; "/data/my"; "report.pbix"] eq_refl)).
Defined.
